(** * scripts/mitm_codex_sse_logger.py: a shallow embedding

    The addon exposes two callbacks, [request] and [response], which the
    proxy host calls with a flow object.  The embedding below follows the
    Python source function by function:

    - Python [str] values are sequences of Unicode code points ([list N]);
    - values produced by [json.loads] are the inductive [json];
    - the callbacks run in a small monad that threads the host world (the
      flow object, the event trace, the side file) and carries Python
      exceptions. *)

From Stdlib Require Import List NArith ZArith Bool String Ascii Lia PrimFloat.
Import ListNotations.

Set Implicit Arguments.
Set Warnings "-register-all".

(** ** Python strings *)

Definition str := list N.

(** An ASCII literal of the source as a Python string. *)
Definition u (s : string) : str :=
  map N_of_ascii (list_ascii_of_string s).

Module Str.

Fixpoint eqb (a b : str) : bool :=
  match a, b with
  | [], [] => true
  | x :: a', y :: b' => N.eqb x y && eqb a' b'
  | _, _ => false
  end.

(** [s.startswith(prefix)] *)
Fixpoint startswith (s prefix : str) : bool :=
  match prefix, s with
  | [], _ => true
  | p :: prefix', c :: s' => N.eqb c p && startswith s' prefix'
  | _ :: _, [] => false
  end.

(** [needle in hay] *)
Fixpoint contains (needle hay : str) : bool :=
  startswith hay needle ||
  match hay with
  | [] => false
  | _ :: hay' => contains needle hay'
  end.

(** The code points for which [str.isspace] holds; [str.strip] with no
    argument removes exactly these. *)
Definition isspace (c : N) : bool :=
  ((9 <=? c) && (c <=? 13) || (28 <=? c) && (c <=? 32)
   || (c =? 133) || (c =? 160) || (c =? 5760)
   || (8192 <=? c) && (c <=? 8202)
   || (c =? 8232) || (c =? 8233) || (c =? 8239) || (c =? 8287)
   || (c =? 12288))%N.

(** The line boundaries of [str.splitlines]. *)
Definition islinebreak (c : N) : bool :=
  ((10 <=? c) && (c <=? 13) || (28 <=? c) && (c <=? 30)
   || (c =? 133) || (c =? 8232) || (c =? 8233))%N.

Fixpoint lstrip (s : str) : str :=
  match s with
  | [] => []
  | c :: s' => if isspace c then lstrip s' else s
  end.

Definition rstrip (s : str) : str := rev (lstrip (rev s)).

(** [s.strip()] *)
Definition strip (s : str) : str := rstrip (lstrip s).

(** [s.splitlines()]: [cur] holds the current line, last character first. *)
Fixpoint splitlines_from (cur : str) (s : str) : list str :=
  match s with
  | [] => match cur with [] => [] | _ :: _ => [rev cur] end
  | c :: rest =>
      if N.eqb c 13 then
        match rest with
        | 10%N :: rest' => rev cur :: splitlines_from [] rest'
        | _ => rev cur :: splitlines_from [] rest
        end
      else if islinebreak c then rev cur :: splitlines_from [] rest
      else splitlines_from (c :: cur) rest
  end.

Definition splitlines (s : str) : list str := splitlines_from [] s.

(** [s[n:]] *)
Definition slice_from (n : nat) (s : str) : str := skipn n s.

End Str.

(** ** The flow object of the host *)

Inductive exn : Type :=
| AttributeError
| TypeError
| JSONDecodeError (msg : str)
| OtherException (name : str).

Module http.

Record Request := {
  pretty_url : str;
  method : str;
  (* the outcome of [get_text()]: it raises, or returns the text, or
     returns None when the message has no content *)
  request_text : exn + option str
}.

Record Response := {
  status_code : Z;
  headers : list (str * str);
  (* the value of [get_text(strict=False)] *)
  response_text : str
}.

Record HTTPFlow := {
  id : str;
  request : Request;
  response : option Response
}.

End http.

(** ** [_looks_like_codex] *)

Definition _looks_like_codex (flow : http.HTTPFlow) : bool :=
  let url := http.pretty_url (http.request flow) in
  Str.contains (u "chatgpt.com") url && Str.contains (u "/backend-api/codex") url.

(** ** Python values as [json.loads] builds them *)

Inductive pyobj : Type :=
| PNone
| PBool (b : bool)
| PInt (z : Z)
| PFloat (f : float)
| PStr (s : str)
| PList (l : list pyobj)
| PDict (d : list (str * pyobj)).

(** A [dict], in insertion order. *)
Definition dict := list (str * pyobj).

(** Python's truth value test, as used by [if x], [not x] and [x or y]. *)
Definition truthy (v : pyobj) : bool :=
  match v with
  | PNone => false
  | PBool b => b
  | PInt z => negb (Z.eqb z 0)
  | PFloat f => negb (PrimFloat.eqb f 0%float)
  | PStr s => match s with [] => false | _ :: _ => true end
  | PList l => match l with [] => false | _ :: _ => true end
  | PDict d => match d with [] => false | _ :: _ => true end
  end.

(** [isinstance(v, dict)] *)
Definition isinstance_dict (v : pyobj) : bool :=
  match v with PDict _ => true | _ => false end.

Module Dict.

Fixpoint lookup (d : dict) (k : str) : option pyobj :=
  match d with
  | [] => None
  | (k', v) :: d' => if Str.eqb k' k then Some v else lookup d' k
  end.

(** [d.get(k, default)] *)
Definition get_default (d : dict) (k : str) (default : pyobj) : pyobj :=
  match lookup d k with
  | Some v => v
  | None => default
  end.

(** [d.get(k)] *)
Definition get (d : dict) (k : str) : pyobj := get_default d k PNone.

(** [list(d.keys())] *)
Definition keys (d : dict) : list str := map fst d.

(** [d] without the key [k]. *)
Fixpoint remove (k : str) (d : dict) : dict :=
  match d with
  | [] => []
  | (k', v) :: d' =>
      if Str.eqb k' k then remove k d' else (k', v) :: remove k d'
  end.

End Dict.

(** [v.get(k)] on an arbitrary value: only a dict has the method. *)
Definition method_get (v : pyobj) (k : str) : exn + pyobj :=
  match v with
  | PDict d => inr (Dict.get d k)
  | _ => inl AttributeError
  end.

(** [a or b], where [b] is evaluated only when [a] is falsy and may raise. *)
Definition py_or (a : pyobj) (b : unit -> exn + pyobj) : exn + pyobj :=
  if truthy a then inr a else b tt.

(** ** [_extract_model] *)

Definition _extract_model (payload : dict) : pyobj :=
  let model := Dict.get payload (u "model") in
  if truthy model then model
  else
    let response := Dict.get payload (u "response") in
    match response with
    | PDict response => Dict.get response (u "model")
    | _ => PNone
    end.

(** ** The reasoning-effort lookup of [response] (lines 86-95) *)

(** Lines 89-91: the value of [reasoning] or, when that is falsy, the
    [reasoning] of [metadata], where a missing [metadata] counts as the
    empty dict and the second lookup is a method call on whatever
    [metadata] is bound to. *)
Definition resolve_reasoning (response : dict) : exn + pyobj :=
  py_or (Dict.get response (u "reasoning"))
        (fun _ =>
           method_get (Dict.get_default response (u "metadata") (PDict []))
                      (u "reasoning")).

(** Lines 92-95: the effort of a resolved [reasoning] value; [None] stays
    when it is not a dict. *)
Definition effort_of (reasoning : pyobj) : exn + pyobj :=
  match reasoning with
  | PDict reasoning =>
      py_or (Dict.get reasoning (u "effort"))
            (fun _ => inr (Dict.get reasoning (u "effort_level")))
  | _ => inr PNone
  end.

(** Lines 86-95: the value of [reasoning_effort] when the lookup ends. *)
Definition reasoning_effort_of (payload : dict) : exn + pyobj :=
  let response := Dict.get payload (u "response") in
  match response with
  | PDict response =>
      match resolve_reasoning response with
      | inr reasoning => effort_of reasoning
      | inl e => inl e
      end
  | _ => inr PNone
  end.

(** ** The host world and the monad of the callbacks *)

(** A positional argument of a [ctx.log.info] call. *)
Inductive arg : Type :=
| AStr (s : str)
| AInt (z : Z)
| AObj (v : pyobj)
| AHeaders (h : list (str * str))
| AKeys (ks : list str).

Inductive event : Type :=
| LogInfo (fmt : str) (args : list arg)
| LogWarn (msg : str) (error : str) (chunk : str)
| GetText
| JsonLoads (text : str).

Record world := {
  w_flow : http.HTTPFlow;
  w_trace : list event;
  (* whether /tmp/mitm_last_body.txt can be written, and what it holds *)
  w_tmp_writable : bool;
  w_last_body : option str
}.

Definition M (A : Type) : Type := world -> (exn + A) * world.

Definition ret {A} (a : A) : M A := fun w => (inr a, w).

Definition bind {A B} (m : M A) (k : A -> M B) : M B :=
  fun w =>
    match m w with
    | (inr a, w') => k a w'
    | (inl e, w') => (inl e, w')
    end.

Definition raise {A} (e : exn) : M A := fun w => (inl e, w).

(** [try: m  except Exception: handler] *)
Definition try_except {A} (m : M A) (handler : M A) : M A :=
  fun w =>
    match m w with
    | (inr a, w') => (inr a, w')
    | (inl _, w') => handler w'
    end.

Definition lift {A} (r : exn + A) : M A :=
  match r with
  | inr a => ret a
  | inl e => raise e
  end.

Declare Scope monad_scope.
Delimit Scope monad_scope with monad.
Notation "x <- m ;; k" := (bind m (fun x => k))
  (at level 61, m at next level, right associativity) : monad_scope.
Notation "m ;; k" := (bind m (fun _ => k))
  (at level 61, right associativity) : monad_scope.
Local Open Scope monad_scope.

(** The world after the events [es] took place. *)
Definition record (es : list event) (w : world) : world :=
  {| w_flow := w_flow w;
     w_trace := w_trace w ++ es;
     w_tmp_writable := w_tmp_writable w;
     w_last_body := w_last_body w |}.

Definition emit (e : event) : M unit := fun w => (inr tt, record [e] w).

(** The flow object the host passes to the callback. *)
Definition the_flow : M http.HTTPFlow := fun w => (inr (w_flow w), w).

(** [ctx.log.info(fmt, *args)] *)
Definition log_info (fmt : str) (args : list arg) : M unit :=
  emit (LogInfo fmt args).

(** [flow.response.get_text(strict=False)] *)
Definition response_get_text (r : http.Response) : M str :=
  emit GetText ;; ret (http.response_text r).

(** [flow.request.get_text()] *)
Definition request_get_text (r : http.Request) : M (option str) :=
  emit GetText ;; lift (http.request_text r).

(** [Path("/tmp/mitm_last_body.txt").write_text(body)] *)
Definition write_last_body (body : str) : M unit :=
  fun w =>
    if w_tmp_writable w then
      (inr tt, {| w_flow := w_flow w;
                  w_trace := w_trace w;
                  w_tmp_writable := true;
                  w_last_body := Some body |})
    else (inl (OtherException (u "OSError")), w).

(** ** Generators *)

(** What a generator does when the loop asks for the next element: it may
    first act on the world, then it yields, raises, or is exhausted (the
    end of the list). *)
Inductive gen_step (A : Type) : Type :=
| GEmit (e : event)
| GYield (a : A)
| GRaise (e : exn).
Arguments GEmit {A} e.
Arguments GYield {A} a.
Arguments GRaise {A} e.

(** [for a in g: body(a)] *)
Fixpoint for_each {A} (g : list (gen_step A)) (body : A -> M unit) : M unit :=
  match g with
  | [] => ret tt
  | GEmit e :: g' => emit e ;; for_each g' body
  | GYield a :: g' => body a ;; for_each g' body
  | GRaise e :: _ => raise e
  end.

(** The body of the [for] loop of [response] (lines 85-105). *)
Definition response_loop_body (flow : http.HTTPFlow) (item : pyobj * dict)
  : M unit :=
  let '(event_type, payload) := item in
  let model := _extract_model payload in
  reasoning_effort <- lift (reasoning_effort_of payload) ;;
  if truthy model then
    log_info
      (u "codex_sse_model flow=%s event=%s model=%s reasoning=%s url=%s")
      [AStr (http.id flow); AObj event_type; AObj model;
       AObj reasoning_effort;
       AStr (http.pretty_url (http.request flow))]
  else ret tt.

Section Addon.

(** [json.loads] on a [str]: the decoded value, [json.JSONDecodeError]
    or any other exception the decoder lets through. *)
Variable json_loads : str -> exn + pyobj.

(** ** [_iter_sse_payloads] *)

Fixpoint iter_lines (lines : list str) : list (gen_step (pyobj * dict)) :=
  match lines with
  | [] => []
  | raw_line :: rest =>
      let line := Str.strip raw_line in
      if negb (Str.startswith line (u "data:")) then iter_lines rest
      else
        let payload := Str.strip (Str.slice_from (List.length (u "data:")) line) in
        if match payload with [] => true | _ :: _ => false end
           || Str.eqb payload (u "[DONE]")
        then iter_lines rest
        else
          GEmit (JsonLoads payload) ::
          match json_loads payload with
          | inl (JSONDecodeError msg) =>
              GEmit (LogWarn (u "failed to decode SSE chunk") msg payload)
                :: iter_lines rest
          | inl e => [GRaise e]
          | inr (PDict parsed) =>
              let event_type :=
                Dict.get_default parsed (u "type") (PStr (u "unknown")) in
              GYield (event_type, parsed) :: iter_lines rest
          | inr _ => [GRaise AttributeError]
          end
  end.

Definition _iter_sse_payloads (body : str)
  : list (gen_step (pyobj * dict)) :=
  iter_lines (Str.splitlines body).

(** ** [response] *)

Definition response : M unit :=
  flow <- the_flow ;;
  match http.response flow with
  | None => ret tt
  | Some flow_response =>
      log_info (u "codex_response flow=%s status=%s headers=%s")
               [AStr (http.id flow);
                AInt (http.status_code flow_response);
                AHeaders (http.headers flow_response)] ;;
      if negb (_looks_like_codex flow) then ret tt
      else
        body <- response_get_text flow_response ;;
        try_except (write_last_body body) (ret tt) ;;
        for_each (_iter_sse_payloads body) (response_loop_body flow)
  end.

(** ** [request] *)

Definition request : M unit :=
  flow <- the_flow ;;
  if negb (_looks_like_codex flow) then ret tt
  else if negb (Str.eqb (http.method (http.request flow)) (u "POST"))
  then ret tt
  else
    parsed <-
      try_except
        (body <- request_get_text (http.request flow) ;;
         match body with
         | None => raise TypeError
         | Some body =>
             emit (JsonLoads body) ;;
             payload <- lift (json_loads body) ;;
             ret (Some payload)
         end)
        (ret None) ;;
    match parsed with
    | None => ret tt
    | Some payload =>
        prompt_cache_key <- lift (method_get payload (u "prompt_cache_key")) ;;
        include <- lift (method_get payload (u "include")) ;;
        keys <- lift (match payload with
                      | PDict d => inr (Dict.keys d)
                      | _ => inl AttributeError
                      end) ;;
        log_info
          (u "codex_request flow=%s prompt_cache_key=%s include=%s keys=%s")
          [AStr (http.id flow); AObj prompt_cache_key; AObj include;
           AKeys keys]
    end.

End Addon.

(** ** A decoder for a fragment of JSON

    [json_loads_fragment] decodes the JSON texts built from objects, arrays,
    strings with the single-character escapes, integers and the three
    literals, the way [json.loads] does (a repeated key keeps its first
    position and takes the last value).  It instantiates the decoder that
    the addon is parameterised by at concrete bodies; every other text is
    reported as undecodable. *)

Module Json.

Definition is_ws (c : N) : bool :=
  ((c =? 32) || (c =? 9) || (c =? 10) || (c =? 13))%N.

Fixpoint skip_ws (s : str) : str :=
  match s with
  | c :: s' => if is_ws c then skip_ws s' else s
  | [] => []
  end.

Definition is_digit (c : N) : bool := ((48 <=? c) && (c <=? 57))%N.

Definition unescape (c : N) : option N :=
  (if c =? 34 then Some 34       (* quotation mark *)
   else if c =? 92 then Some 92  (* reverse solidus *)
   else if c =? 47 then Some 47  (* solidus *)
   else if c =? 98 then Some 8   (* b: backspace *)
   else if c =? 102 then Some 12 (* f: form feed *)
   else if c =? 110 then Some 10 (* n: line feed *)
   else if c =? 114 then Some 13 (* r: carriage return *)
   else if c =? 116 then Some 9  (* t: tab *)
   else None)%N.

(** The characters of a string literal after its opening quote. *)
Fixpoint scan_string (acc : str) (s : str) : option (str * str) :=
  match s with
  | [] => None
  | c :: rest =>
      if (c =? 34)%N then Some (rev acc, rest)
      else if (c =? 92)%N then
        match rest with
        | e :: rest' =>
            match unescape e with
            | Some c' => scan_string (c' :: acc) rest'
            | None => None
            end
        | [] => None
        end
      else if (c <? 32)%N then None
      else scan_string (c :: acc) rest
  end.

Fixpoint scan_digits (acc : Z) (s : str) : Z * str :=
  match s with
  | c :: rest =>
      if is_digit c then scan_digits (10 * acc + Z.of_N (c - 48)) rest
      else (acc, s)
  | [] => (acc, [])
  end.

(** An integer without its sign: [0] or a digit sequence not starting with
    [0]; a fraction or an exponent is outside the fragment. *)
Definition scan_nat (s : str) : option (Z * str) :=
  match s with
  | c :: rest =>
      if negb (is_digit c) then None
      else
        let '(n, rest') :=
          if (c =? 48)%N then (0%Z, rest) else scan_digits (Z.of_N (c - 48)) rest in
        match rest' with
        | d :: _ => if ((d =? 46) || (d =? 101) || (d =? 69))%N then None
                    else Some (n, rest')
        | [] => Some (n, rest')
        end
  | [] => None
  end.

(** [d[k] = v] *)
Fixpoint dict_set (d : dict) (k : str) (v : pyobj) : dict :=
  match d with
  | [] => [(k, v)]
  | (k', v') :: d' =>
      if Str.eqb k' k then (k', v) :: d' else (k', v') :: dict_set d' k v
  end.

Definition expect (lit : str) (v : pyobj) (s : str) : option (pyobj * str) :=
  if Str.startswith s lit then Some (v, skipn (List.length lit) s) else None.

Fixpoint parse_value (fuel : nat) (s : str) : option (pyobj * str) :=
  match fuel with
  | O => None
  | S fuel =>
      match s with
      | [] => None
      | c :: rest =>
          if (c =? 110)%N then expect (u "null") PNone s
          else if (c =? 116)%N then expect (u "true") (PBool true) s
          else if (c =? 102)%N then expect (u "false") (PBool false) s
          else if (c =? 34)%N then
            match scan_string [] rest with
            | Some (str, rest') => Some (PStr str, rest')
            | None => None
            end
          else if (c =? 45)%N then
            match scan_nat rest with
            | Some (n, rest') => Some (PInt (- n), rest')
            | None => None
            end
          else if is_digit c then
            match scan_nat s with
            | Some (n, rest') => Some (PInt n, rest')
            | None => None
            end
          else if (c =? 91)%N then
            match skip_ws rest with
            | 93%N :: rest' => Some (PList [], rest')
            | rest' => parse_elements fuel [] rest'
            end
          else if (c =? 123)%N then
            match skip_ws rest with
            | 125%N :: rest' => Some (PDict [], rest')
            | rest' => parse_members fuel [] rest'
            end
          else None
      end
  end
with parse_elements (fuel : nat) (acc : list pyobj) (s : str)
  : option (pyobj * str) :=
  match fuel with
  | O => None
  | S fuel =>
      match parse_value fuel s with
      | Some (v, rest) =>
          match skip_ws rest with
          | 44%N :: rest' => parse_elements fuel (v :: acc) (skip_ws rest')
          | 93%N :: rest' => Some (PList (rev (v :: acc)), rest')
          | _ => None
          end
      | None => None
      end
  end
with parse_members (fuel : nat) (acc : dict) (s : str)
  : option (pyobj * str) :=
  match fuel with
  | O => None
  | S fuel =>
      match s with
      | 34%N :: rest =>
          match scan_string [] rest with
          | Some (key, rest) =>
              match skip_ws rest with
              | 58%N :: rest =>
                  match parse_value fuel (skip_ws rest) with
                  | Some (v, rest) =>
                      match skip_ws rest with
                      | 44%N :: rest' =>
                          parse_members fuel (dict_set acc key v) (skip_ws rest')
                      | 125%N :: rest' =>
                          Some (PDict (dict_set acc key v), rest')
                      | _ => None
                      end
                  | None => None
                  end
              | _ => None
              end
          | None => None
          end
      | _ => None
      end
  end.

Definition json_loads_fragment (s : str) : exn + pyobj :=
  match parse_value (S (List.length s)) (skip_ws s) with
  | Some (v, rest) =>
      match skip_ws rest with
      | [] => inr v
      | _ :: _ => inl (JSONDecodeError (u "Extra data"))
      end
  | None => inl (JSONDecodeError (u "Expecting value"))
  end.

End Json.

(** A text of the examples, written with ['] for the quotation mark and
    [|] for the line feed. *)
Definition js (s : string) : str :=
  map (fun c => if (c =? 39)%N then 34%N else if (c =? 124)%N then 10%N else c)
      (u s).

(** ** Sample flows and worlds *)

Definition mk_flow (url method : str) (request_text : exn + option str)
  (response : option http.Response) : http.HTTPFlow :=
  {| http.id := u "flow-1";
     http.request := {| http.pretty_url := url;
                        http.method := method;
                        http.request_text := request_text |};
     http.response := response |}.

Definition mk_world (flow : http.HTTPFlow) : world :=
  {| w_flow := flow; w_trace := []; w_tmp_writable := true;
     w_last_body := None |}.

Definition codex_url : str := u "https://chatgpt.com/backend-api/codex/responses".


(** A classified POST flow whose request has the body [body]. *)
Definition post_world (body : exn + option str) : world :=
  mk_world (mk_flow codex_url (u "POST") body None).

(** The records handed to the logging facility. *)
Definition log_records (t : list event) : list event :=
  filter (fun e => match e with
                   | LogInfo _ _ | LogWarn _ _ _ => true
                   | _ => false
                   end) t.

(** How often the body text of the flow was read. *)
Definition gettext_count (t : list event) : nat :=
  List.length (filter (fun e => match e with GetText => true | _ => false end) t).

(** The summary record of [response] for the flow of [w]. *)
Definition summary_record (w : world) (r : http.Response) : event :=
  LogInfo (u "codex_response flow=%s status=%s headers=%s")
          [AStr (http.id (w_flow w)); AInt (http.status_code r);
           AHeaders (http.headers r)].

(** The world when the loop of [response] starts: the summary is logged,
    the body text is read, and the side file holds it if it could be
    written. *)
Definition loop_entry (w : world) (r : http.Response) : world :=
  {| w_flow := w_flow w;
     w_trace := w_trace w ++ [summary_record w r; GetText];
     w_tmp_writable := w_tmp_writable w;
     w_last_body := if w_tmp_writable w then Some (http.response_text r)
                    else w_last_body w |}.

(** A computation that leaves the flow as it is and reads no body text. *)
Definition quiet {A} (m : M A) : Prop :=
  forall w,
    w_flow (snd (m w)) = w_flow w /\
    exists new, w_trace (snd (m w)) = w_trace w ++ new /\ gettext_count new = 0%nat.

(** [needle] occurs in [hay]. *)
Definition substring (needle hay : str) : Prop :=
  exists a b, hay = a ++ needle ++ b.

Definition url_of (flow : http.HTTPFlow) : str :=
  http.pretty_url (http.request flow).

Definition flow_with_url (url : str) : http.HTTPFlow :=
  mk_flow url (u "GET") (inr None) None.

(** ** Vocabulary of the statements *)

(** The key [k] is bound in [d] to a value that passes the truth test. *)
Definition present_nonempty (d : dict) (k : str) : Prop :=
  exists v, Dict.lookup d k = Some v /\ truthy v = true.

(** The key [k] is bound in [d] to a value that fails the truth test. *)
Definition present_falsy (d : dict) (k : str) : Prop :=
  exists v, Dict.lookup d k = Some v /\ truthy v = false.

Definition absent (d : dict) (k : str) : Prop := Dict.lookup d k = None.

Definition absent_or_empty (d : dict) (k : str) : Prop :=
  absent d k \/ present_falsy d k.

(** The key [k] is bound in [d] to the dict [d']. *)
Definition has_object (d : dict) (k : str) (d' : dict) : Prop :=
  Dict.lookup d k = Some (PDict d').

(** The key [k] is unbound in [d], or bound to something that is no dict. *)
Definition no_object (d : dict) (k : str) : Prop :=
  absent d k \/ exists v, Dict.lookup d k = Some v /\ isinstance_dict v = false.

(** Where the reasoning value of a [response] object comes from:
    [response.reasoning] when that is truthy, else
    [response.metadata.reasoning], else nothing when there is no
    [metadata]. *)
Inductive reasoning_source (response : dict) : pyobj -> Prop :=
| reasoning_direct :
    truthy (Dict.get response (u "reasoning")) = true ->
    reasoning_source response (Dict.get response (u "reasoning"))
| reasoning_in_metadata metadata :
    truthy (Dict.get response (u "reasoning")) = false ->
    has_object response (u "metadata") metadata ->
    reasoning_source response (Dict.get metadata (u "reasoning"))
| reasoning_nowhere :
    truthy (Dict.get response (u "reasoning")) = false ->
    absent response (u "metadata") ->
    reasoning_source response PNone.

(** The payloads of the examples. *)
Definition payload_response_model : dict :=
  [(u "response", PDict [(u "model", PStr (u "gpt-5-mini"))])].

(** A reasoning object whose [effort] is the empty string. *)
Definition reasoning_empty_effort : dict :=
  [(u "effort", PStr []); (u "effort_level", PStr (u "low"))].

Definition payload_empty_effort : dict :=
  [(u "response", PDict [(u "reasoning", PDict reasoning_empty_effort)])].

Definition payload_metadata_effort_level : dict :=
  [(u "response",
    PDict [(u "metadata",
            PDict [(u "reasoning",
                    PDict [(u "effort_level", PStr (u "low"))])])])].

(** The trimmed line [raw_line] begins with the prefix and what follows,
    trimmed, is the text [chunk], neither empty nor the sentinel. *)
Definition data_chunk (raw_line chunk : str) : Prop :=
  Str.startswith (Str.strip raw_line) (u "data:") = true /\
  chunk = Str.strip (Str.slice_from (List.length (u "data:")) (Str.strip raw_line)) /\
  chunk <> [] /\ chunk <> u "[DONE]".

Definition not_data_line (raw_line : str) : Prop :=
  Str.startswith (Str.strip raw_line) (u "data:") = false.

(** A [data:] line that carries the sentinel. *)
Definition done_line (raw_line : str) : Prop :=
  Str.startswith (Str.strip raw_line) (u "data:") = true /\
  Str.strip (Str.slice_from (List.length (u "data:")) (Str.strip raw_line)) = u "[DONE]".

(** The elements a generator yields, in order. *)
Definition yields {A} (g : list (gen_step A)) : list A :=
  flat_map (fun step => match step with GYield a => [a] | _ => [] end) g.

(** The generator is exhausted without raising. *)
Definition completes {A} (g : list (gen_step A)) : Prop :=
  forall e, ~ In (GRaise e) g.

(** A valid line: a [data:] line whose text decodes to a JSON object; its
    element pairs the object with its [type], or with unknown. *)
Definition valid_line (json_loads : str -> exn + pyobj)
  (raw_line : str) (item : pyobj * dict) : Prop :=
  exists chunk,
    data_chunk raw_line chunk /\
    json_loads chunk = inr (PDict (snd item)) /\
    fst item = Dict.get_default (snd item) (u "type") (PStr (u "unknown")).

(** The bodies of the examples. *)
Definition body_without_data : str := js "event: ping|: keep-alive||".

(** ** Vocabulary of the further properties *)

(** A string of whitespace only. *)
Definition all_space (s : str) : Prop := Forall (fun c => Str.isspace c = true) s.

(** The decoder calls of a generator, in order. *)
Definition decoder_calls {A} (g : list (gen_step A)) : list str :=
  flat_map (fun step => match step with
                        | GEmit (JsonLoads text) => [text]
                        | _ => []
                        end) g.

Definition url_marker_in_query : str :=
  u "https://example.org/backend-api/codex?next=chatgpt.com".

(** ** The addon on mitmproxy's own logger and files

    [ctx.log] is mitmproxy's [Log]; its [info] and [warn] take the text and
    nothing else, so a call that passes further positional or keyword
    arguments is refused with TypeError while the arguments are bound, and
    the logger does not run.  The callbacks are embedded here once more, on
    a host that behaves so.  On this host [get_text] returns None for a
    message without content, and [Path.write_text] refuses a value that is
    no text, then opens the file, which empties it, and then encodes and
    writes.  The trace lists the calls the addon makes on the host in
    order, the refused ones included. *)

Module Mitm.

Module flow.

Record Response := {
  status_code : Z;
  headers : list (str * str);
  (* the value of [get_text(strict=False)]: None without content *)
  response_text : option str
}.

Record HTTPFlow := {
  id : str;
  request : http.Request;
  response : option Response
}.

End flow.

(** Lines 56-58. *)
Definition _looks_like_codex (flow : flow.HTTPFlow) : bool :=
  let url := http.pretty_url (flow.request flow) in
  Str.contains (u "chatgpt.com") url && Str.contains (u "/backend-api/codex") url.

Inductive call : Type :=
| InfoCall (txt : str) (args : list arg)
| WarnCall (txt : str) (kwargs : list (str * str))
| GetTextCall
| LoadsCall (text : str).

Record world := {
  w_flow : flow.HTTPFlow;
  w_calls : list call;
  (* whether /tmp/mitm_last_body.txt can be opened for writing, and what
     it holds *)
  w_tmp_writable : bool;
  w_last_body : option str
}.

Definition M (A : Type) : Type := world -> (exn + A) * world.

Definition ret {A} (a : A) : M A := fun w => (inr a, w).

Definition bind {A B} (m : M A) (k : A -> M B) : M B :=
  fun w =>
    match m w with
    | (inr a, w') => k a w'
    | (inl e, w') => (inl e, w')
    end.

Definition raise {A} (e : exn) : M A := fun w => (inl e, w).

(** [try: m  except Exception: handler] *)
Definition try_except {A} (m : M A) (handler : M A) : M A :=
  fun w =>
    match m w with
    | (inr a, w') => (inr a, w')
    | (inl _, w') => handler w'
    end.

Definition lift {A} (r : exn + A) : M A :=
  match r with
  | inr a => ret a
  | inl e => raise e
  end.

Declare Scope mitm_scope.
Notation "x <- m ;; k" := (bind m (fun x => k))
  (at level 61, m at next level, right associativity) : mitm_scope.
Notation "m ;; k" := (bind m (fun _ => k))
  (at level 61, right associativity) : mitm_scope.
Local Open Scope mitm_scope.

(** The world after the calls [cs] were made. *)
Definition record (cs : list call) (w : world) : world :=
  {| w_flow := w_flow w;
     w_calls := w_calls w ++ cs;
     w_tmp_writable := w_tmp_writable w;
     w_last_body := w_last_body w |}.

Definition emit (c : call) : M unit := fun w => (inr tt, record [c] w).

Definition the_flow : M flow.HTTPFlow := fun w => (inr (w_flow w), w).

(** [ctx.log.info(txt, *args)] on [Log.info(self, txt)]. *)
Definition log_info (txt : str) (args : list arg) : M unit :=
  emit (InfoCall txt args) ;;
  match args with
  | [] => ret tt
  | _ :: _ => raise TypeError
  end.

(** [flow.response.get_text(strict=False)] *)
Definition response_get_text (r : flow.Response) : M (option str) :=
  emit GetTextCall ;; ret (flow.response_text r).

(** [flow.request.get_text()] *)
Definition request_get_text (r : http.Request) : M (option str) :=
  emit GetTextCall ;; lift (http.request_text r).

(** A text the UTF-8 encoder accepts: one without surrogate code points. *)
Definition encodable (text : str) : bool :=
  forallb (fun c => negb ((55296 <=? c) && (c <=? 57343))%N) text.

(** [Path("/tmp/mitm_last_body.txt").write_text(body)] *)
Definition write_last_body (body : option str) : M unit :=
  match body with
  | None => raise TypeError
  | Some text =>
      fun w =>
        if w_tmp_writable w then
          if encodable text then
            (inr tt, {| w_flow := w_flow w;
                        w_calls := w_calls w;
                        w_tmp_writable := true;
                        w_last_body := Some text |})
          else
            (inl (OtherException (u "UnicodeEncodeError")),
             {| w_flow := w_flow w;
                w_calls := w_calls w;
                w_tmp_writable := true;
                w_last_body := Some [] |})
        else (inl (OtherException (u "OSError")), w)
  end.

(** What a generator does when the loop asks for the next element. *)
Inductive step (A : Type) : Type :=
| Call (c : call)
| Yield (a : A)
| Raise (e : exn).
Arguments Call {A} c.
Arguments Yield {A} a.
Arguments Raise {A} e.

(** [for a in g: body(a)] *)
Fixpoint for_each {A} (g : list (step A)) (body : A -> M unit) : M unit :=
  match g with
  | [] => ret tt
  | Call c :: g' => emit c ;; for_each g' body
  | Yield a :: g' => body a ;; for_each g' body
  | Raise e :: _ => raise e
  end.

(** [ctx.log.warn(txt, **kwargs)] on [Log.warn(self, txt)], inside a
    generator that goes on with [continue]. *)
Definition log_warn {A} (txt : str) (kwargs : list (str * str))
  (continue : list (step A)) : list (step A) :=
  Call (WarnCall txt kwargs) ::
  match kwargs with
  | [] => continue
  | _ :: _ => [Raise TypeError]
  end.

(** The elements a generator yields, in order. *)
Definition yields {A} (g : list (step A)) : list A :=
  flat_map (fun s => match s with Yield a => [a] | _ => [] end) g.

(** The generator is exhausted without raising. *)
Definition completes {A} (g : list (step A)) : Prop :=
  forall e, ~ In (Raise e) g.

(** The body of the [for] loop of [response] (lines 85-105). *)
Definition response_loop_body (flow : flow.HTTPFlow) (item : pyobj * dict)
  : M unit :=
  let '(event_type, payload) := item in
  let model := _extract_model payload in
  reasoning_effort <- lift (reasoning_effort_of payload) ;;
  if truthy model then
    log_info
      (u "codex_sse_model flow=%s event=%s model=%s reasoning=%s url=%s")
      [AStr (flow.id flow); AObj event_type; AObj model;
       AObj reasoning_effort;
       AStr (http.pretty_url (flow.request flow))]
  else ret tt.

Section Addon.

Variable json_loads : str -> exn + pyobj.

(** Lines 28-41, over the lines of the body. *)
Fixpoint iter_lines (lines : list str) : list (step (pyobj * dict)) :=
  match lines with
  | [] => []
  | raw_line :: rest =>
      let line := Str.strip raw_line in
      if negb (Str.startswith line (u "data:")) then iter_lines rest
      else
        let payload := Str.strip (Str.slice_from (List.length (u "data:")) line) in
        if match payload with [] => true | _ :: _ => false end
           || Str.eqb payload (u "[DONE]")
        then iter_lines rest
        else
          Call (LoadsCall payload) ::
          match json_loads payload with
          | inl (JSONDecodeError msg) =>
              log_warn (u "failed to decode SSE chunk")
                       [(u "error", msg); (u "chunk", payload)]
                       (iter_lines rest)
          | inl e => [Raise e]
          | inr (PDict parsed) =>
              let event_type :=
                Dict.get_default parsed (u "type") (PStr (u "unknown")) in
              Yield (event_type, parsed) :: iter_lines rest
          | inr _ => [Raise AttributeError]
          end
  end.

(** [_iter_sse_payloads(body)]: None has no [splitlines]. *)
Definition _iter_sse_payloads (body : option str)
  : list (step (pyobj * dict)) :=
  match body with
  | None => [Raise AttributeError]
  | Some text => iter_lines (Str.splitlines text)
  end.

Definition response : M unit :=
  flow <- the_flow ;;
  match flow.response flow with
  | None => ret tt
  | Some flow_response =>
      log_info (u "codex_response flow=%s status=%s headers=%s")
               [AStr (flow.id flow);
                AInt (flow.status_code flow_response);
                AHeaders (flow.headers flow_response)] ;;
      if negb (_looks_like_codex flow) then ret tt
      else
        body <- response_get_text flow_response ;;
        try_except (write_last_body body) (ret tt) ;;
        for_each (_iter_sse_payloads body) (response_loop_body flow)
  end.

Definition request : M unit :=
  flow <- the_flow ;;
  if negb (_looks_like_codex flow) then ret tt
  else if negb (Str.eqb (http.method (flow.request flow)) (u "POST"))
  then ret tt
  else
    parsed <-
      try_except
        (body <- request_get_text (flow.request flow) ;;
         match body with
         | None => raise TypeError
         | Some body =>
             emit (LoadsCall body) ;;
             payload <- lift (json_loads body) ;;
             ret (Some payload)
         end)
        (ret None) ;;
    match parsed with
    | None => ret tt
    | Some payload =>
        prompt_cache_key <- lift (method_get payload (u "prompt_cache_key")) ;;
        include <- lift (method_get payload (u "include")) ;;
        keys <- lift (match payload with
                      | PDict d => inr (Dict.keys d)
                      | _ => inl AttributeError
                      end) ;;
        log_info
          (u "codex_request flow=%s prompt_cache_key=%s include=%s keys=%s")
          [AStr (flow.id flow); AObj prompt_cache_key; AObj include;
           AKeys keys]
    end.

End Addon.

(** The summary call of [response] for the flow of [w]. *)
Definition summary_call (w : world) (r : flow.Response) : call :=
  InfoCall (u "codex_response flow=%s status=%s headers=%s")
           [AStr (flow.id (w_flow w)); AInt (flow.status_code r);
            AHeaders (flow.headers r)].

(** The log call of [request] for a decoded object [d]. *)
Definition request_call (w : world) (d : dict) : call :=
  InfoCall (u "codex_request flow=%s prompt_cache_key=%s include=%s keys=%s")
           [AStr (flow.id (w_flow w));
            AObj (Dict.get d (u "prompt_cache_key"));
            AObj (Dict.get d (u "include"));
            AKeys (Dict.keys d)].

(** How often the body text of the flow was asked for. *)
Definition gettext_count (t : list call) : nat :=
  List.length
    (filter (fun c => match c with GetTextCall => true | _ => false end) t).

(** Sample worlds. *)
Definition mk_world (url method : str) (request_text : exn + option str)
  (response : option flow.Response) : world :=
  {| w_flow := {| flow.id := u "flow-1";
                  flow.request := {| http.pretty_url := url;
                                     http.method := method;
                                     http.request_text := request_text |};
                  flow.response := response |};
     w_calls := []; w_tmp_writable := true; w_last_body := None |}.


Definition not_found : flow.Response :=
  {| flow.status_code := 404; flow.headers := [];
     flow.response_text := Some (u "not found") |}.

Definition world_other_site : world :=
  mk_world (u "https://example.com/index.html") (u "GET") (inr None)
           (Some not_found).

Definition post_world (body : str) : world :=
  mk_world codex_url (u "POST") (inr (Some body)) None.

End Mitm.

Definition body_bad_then_valid : str :=
  js "data: {not json||data: {'type': 'response.created', 'model': 'gpt-5'}||data: [DONE]|".

Definition body_cache_key : str :=
  js "{'prompt_cache_key': 'abc', 'include': ['x'], 'extra': 1}".

(** * Strings *)

Lemma Str_eqb_eq (a b : str) : Str.eqb a b = true <-> a = b.
Proof.
  revert b; induction a as [|x a IH]; intros [|y b]; simpl;
    try (split; [discriminate | discriminate]); try tauto.
  rewrite andb_true_iff, N.eqb_eq, IH.
  split; [intros [-> ->]; reflexivity | intros H; inversion H; auto].
Qed.

Lemma Str_eqb_refl (a : str) : Str.eqb a a = true.
Proof. apply Str_eqb_eq; reflexivity. Qed.

Lemma Str_eqb_neq (a b : str) : Str.eqb a b = false <-> a <> b.
Proof.
  rewrite <- Str_eqb_eq. destruct (Str.eqb a b); split; congruence.
Qed.

Lemma startswith_spec (prefix s : str) :
  Str.startswith s prefix = true <-> exists t, s = prefix ++ t.
Proof.
  revert s; induction prefix as [|p prefix IH]; intros s; simpl.
  - split; [intros _; exists s; reflexivity | intros _; destruct s; reflexivity].
  - destruct s as [|c s]; simpl.
    + split; [discriminate | intros [t H]; discriminate].
    + rewrite andb_true_iff, N.eqb_eq, IH. split.
      * intros [-> [t ->]]. exists t; reflexivity.
      * intros [t H]. inversion H; subst. split; [reflexivity | eauto].
Qed.

Lemma contains_unfold (needle hay : str) :
  Str.contains needle hay =
  Str.startswith hay needle ||
  match hay with [] => false | _ :: hay' => Str.contains needle hay' end.
Proof. destruct hay; reflexivity. Qed.

Lemma contains_spec (needle hay : str) :
  Str.contains needle hay = true <-> substring needle hay.
Proof.
  unfold substring.
  induction hay as [|c hay IH]; rewrite contains_unfold, orb_true_iff.
  - rewrite startswith_spec. split.
    + intros [[t H] | H]; [|discriminate].
      exists [], t. exact H.
    + intros (a & b & H). left. exists b.
      destruct a; [exact H | discriminate].
  - rewrite startswith_spec, IH. split.
    + intros [[t H] | (a & b & H)].
      * exists [], t. exact H.
      * exists (c :: a), b. rewrite H. reflexivity.
    + intros (a & b & H). destruct a as [|x a].
      * left. exists b. exact H.
      * right. inversion H; subst. eauto.
Qed.

(** * The flow classifier *)

(** C5: [_looks_like_codex] answers true exactly when the URL contains both
    the host marker "chatgpt.com" and the path marker "/backend-api/codex";
    https://chatgpt.com/backend-api/codex/responses is classified, while
    https://chatgpt.com/other and https://example.com/backend-api/codex,
    which contain one marker each, are not. *)
Theorem looks_like_codex_both_markers :
  (forall flow,
     _looks_like_codex flow = true <->
     substring (u "chatgpt.com") (url_of flow) /\
     substring (u "/backend-api/codex") (url_of flow)) /\
  _looks_like_codex
    (flow_with_url (u "https://chatgpt.com/backend-api/codex/responses")) = true /\
  _looks_like_codex (flow_with_url (u "https://chatgpt.com/other")) = false /\
  _looks_like_codex
    (flow_with_url (u "https://example.com/backend-api/codex")) = false.
Proof.
  split; [|repeat split; vm_compute; reflexivity].
  intros flow. unfold _looks_like_codex, url_of.
  rewrite andb_true_iff, !contains_spec. reflexivity.
Qed.

Lemma looks_like_codex_both_markers_witness :
  substring (u "chatgpt.com") (u "https://chatgpt.com/backend-api/codex/responses") /\
  substring (u "/backend-api/codex")
            (u "https://chatgpt.com/backend-api/codex/responses").
Proof.
  apply (proj1 looks_like_codex_both_markers
           (flow_with_url (u "https://chatgpt.com/backend-api/codex/responses"))).
  vm_compute. reflexivity.
Defined.

(** * Field extraction *)

Lemma get_of_lookup (d : dict) (k : str) (v : pyobj) :
  Dict.lookup d k = Some v -> Dict.get d k = v.
Proof. unfold Dict.get, Dict.get_default. intros ->. reflexivity. Qed.

Lemma get_absent (d : dict) (k : str) : absent d k -> Dict.get d k = PNone.
Proof. unfold absent, Dict.get, Dict.get_default. intros ->. reflexivity. Qed.

Lemma get_default_absent (d : dict) (k : str) (dflt : pyobj) :
  absent d k -> Dict.get_default d k dflt = dflt.
Proof. unfold absent, Dict.get_default. intros ->. reflexivity. Qed.

Lemma absent_or_empty_falsy (d : dict) (k : str) :
  absent_or_empty d k -> truthy (Dict.get d k) = false.
Proof.
  intros [H | (v & H & Hv)].
  - rewrite (get_absent H). reflexivity.
  - rewrite (get_of_lookup _ _ H). exact Hv.
Qed.

Lemma no_object_get (d : dict) (k : str) :
  no_object d k -> isinstance_dict (Dict.get d k) = false.
Proof.
  intros [H | (v & H & Hv)].
  - rewrite (get_absent H). reflexivity.
  - rewrite (get_of_lookup _ _ H). exact Hv.
Qed.

(** C4: [_extract_model] returns the top-level [model] when it is present
    and non-empty (passes the truth test); when it is absent or empty it
    returns [response.model] if [response] is present and is a dict, and
    None otherwise; on the payload with only response.model = gpt-5-mini it
    returns gpt-5-mini. *)
Theorem extract_model_prefers_top_level :
  (forall payload : dict,
     (present_nonempty payload (u "model") ->
      _extract_model payload = Dict.get payload (u "model")) /\
     (absent_or_empty payload (u "model") ->
      (forall response,
         has_object payload (u "response") response ->
         _extract_model payload = Dict.get response (u "model")) /\
      (no_object payload (u "response") -> _extract_model payload = PNone))) /\
  absent payload_response_model (u "model") /\
  _extract_model payload_response_model = PStr (u "gpt-5-mini").
Proof.
  split; [|split; reflexivity].
  intros payload. unfold _extract_model. split.
  - intros (v & H & Hv). rewrite (get_of_lookup _ _ H), Hv. reflexivity.
  - intros H. rewrite (absent_or_empty_falsy H). split.
    + intros response Hr. rewrite (get_of_lookup _ _ Hr). reflexivity.
    + intros Hr. apply no_object_get in Hr.
      destruct (Dict.get payload (u "response")); try reflexivity; discriminate.
Qed.

Lemma extract_model_prefers_top_level_witness :
  _extract_model [(u "model", PStr (u "gpt-5"))] = PStr (u "gpt-5") /\
  _extract_model [(u "model", PStr []); (u "response", PInt 7)] = PNone.
Proof.
  split.
  - apply (proj1 (proj1 extract_model_prefers_top_level
                        [(u "model", PStr (u "gpt-5"))])).
    exists (PStr (u "gpt-5")). split; reflexivity.
  - apply (proj2 (proj1 extract_model_prefers_top_level
                        [(u "model", PStr []); (u "response", PInt 7)])).
    + right. exists (PStr []). split; reflexivity.
    + right. exists (PInt 7). split; reflexivity.
Defined.

Lemma resolve_reasoning_source (response : dict) (reasoning : pyobj) :
  reasoning_source response reasoning ->
  resolve_reasoning response = inr reasoning.
Proof.
  unfold resolve_reasoning, py_or.
  intros [Hv | metadata Hv Hm | Hv Hm]; rewrite Hv; try reflexivity.
  - unfold Dict.get_default at 1. rewrite Hm. reflexivity.
  - rewrite (get_default_absent _ Hm). reflexivity.
Qed.

(** C3, as amended: the reasoning effort stays None unless the payload's
    [response] is a dict; the reasoning value is response.reasoning when
    that is truthy and response.metadata.reasoning otherwise (None without
    a metadata); when that value is a dict the result is its [effort] when
    that is truthy and its [effort_level] otherwise; the payload whose only
    reasoning is response.metadata.reasoning.effort_level = low gives low. *)
Theorem reasoning_effort_truthy_lookup_order :
  (forall payload : dict,
     (no_object payload (u "response") ->
      reasoning_effort_of payload = inr PNone) /\
     (forall response reasoning,
        has_object payload (u "response") response ->
        reasoning_source response reasoning ->
        (forall r, reasoning = PDict r ->
           (truthy (Dict.get r (u "effort")) = true ->
            reasoning_effort_of payload = inr (Dict.get r (u "effort"))) /\
           (truthy (Dict.get r (u "effort")) = false ->
            reasoning_effort_of payload = inr (Dict.get r (u "effort_level")))) /\
        (isinstance_dict reasoning = false ->
         reasoning_effort_of payload = inr PNone))) /\
  (exists response,
     has_object payload_metadata_effort_level (u "response") response /\
     absent response (u "reasoning")) /\
  reasoning_effort_of payload_metadata_effort_level = inr (PStr (u "low")).
Proof.
  split; [|split; [eexists; split; reflexivity | reflexivity]].
  intros payload. unfold reasoning_effort_of. split.
  - intros H. apply no_object_get in H.
    destruct (Dict.get payload (u "response")); try reflexivity; discriminate.
  - intros response reasoning Hr Hsrc.
    rewrite (get_of_lookup _ _ Hr), (resolve_reasoning_source Hsrc).
    split.
    + intros r ->. unfold effort_of, py_or.
      split; intros ->; reflexivity.
    + intros H. destruct reasoning; try reflexivity; discriminate.
Qed.

Lemma reasoning_effort_truthy_lookup_order_witness :
  reasoning_effort_of
    [(u "response",
      PDict [(u "reasoning", PDict [(u "effort", PStr (u "high"))])])]
  = inr (PStr (u "high")) /\
  reasoning_effort_of payload_metadata_effort_level = inr (PStr (u "low")) /\
  reasoning_effort_of [(u "response", PStr (u "done"))] = inr PNone.
Proof.
  destruct reasoning_effort_truthy_lookup_order as [H _].
  split; [|split].
  - destruct (H [(u "response",
                  PDict [(u "reasoning", PDict [(u "effort", PStr (u "high"))])])])
      as [_ Hobj].
    destruct (Hobj [(u "reasoning", PDict [(u "effort", PStr (u "high"))])]
                   (PDict [(u "effort", PStr (u "high"))])) as [Hdict _].
    + reflexivity.
    + apply (reasoning_direct
               [(u "reasoning", PDict [(u "effort", PStr (u "high"))])]).
      reflexivity.
    + destruct (Hdict [(u "effort", PStr (u "high"))] eq_refl) as [Heffort _].
      apply Heffort. reflexivity.
  - destruct (H payload_metadata_effort_level) as [_ Hobj].
    destruct (Hobj [(u "metadata",
                     PDict [(u "reasoning",
                             PDict [(u "effort_level", PStr (u "low"))])])]
                   (PDict [(u "effort_level", PStr (u "low"))])) as [Hdict _].
    + reflexivity.
    + apply (reasoning_in_metadata
               (response := [(u "metadata",
                              PDict [(u "reasoning",
                                      PDict [(u "effort_level", PStr (u "low"))])])])
               (metadata := [(u "reasoning",
                              PDict [(u "effort_level", PStr (u "low"))])]));
        reflexivity.
    + destruct (Hdict [(u "effort_level", PStr (u "low"))] eq_refl) as [_ Hlevel].
      apply Hlevel. reflexivity.
  - destruct (H [(u "response", PStr (u "done"))]) as [Hnone _].
    apply Hnone. right. exists (PStr (u "done")). split; reflexivity.
Defined.

(** The resolved reasoning object has an [effort] key, bound to the empty
    string, and the result is not that value but the [effort_level]. *)
Lemma present_empty_effort_is_not_the_result :
  Dict.get payload_empty_effort (u "response")
  = PDict [(u "reasoning", PDict reasoning_empty_effort)] /\
  Dict.lookup reasoning_empty_effort (u "effort") = Some (PStr []) /\
  reasoning_effort_of payload_empty_effort = inr (PStr (u "low")) /\
  reasoning_effort_of payload_empty_effort
  <> inr (Dict.get reasoning_empty_effort (u "effort")).
Proof. repeat split. vm_compute. discriminate. Qed.

(** ** Falsy values at the fallback points *)

Lemma lookup_remove_same (k : str) (d : dict) :
  Dict.lookup (Dict.remove k d) k = None.
Proof.
  induction d as [|[k' v] d IH]; simpl; [reflexivity|].
  destruct (Str.eqb k' k) eqn:E; [exact IH|].
  simpl. rewrite E. exact IH.
Qed.

Lemma lookup_remove_other (k k' : str) (d : dict) :
  k' <> k -> Dict.lookup (Dict.remove k d) k' = Dict.lookup d k'.
Proof.
  intros Hne. induction d as [|[k0 v] d IH]; simpl; [reflexivity|].
  destruct (Str.eqb k0 k) eqn:E.
  - apply Str_eqb_eq in E. subst k0.
    destruct (Str.eqb k k') eqn:E'; [|exact IH].
    apply Str_eqb_eq in E'. congruence.
  - simpl. destruct (Str.eqb k0 k'); [reflexivity | exact IH].
Qed.

Lemma get_remove_same (k : str) (d : dict) :
  Dict.get (Dict.remove k d) k = PNone.
Proof. apply get_absent, lookup_remove_same. Qed.

Lemma get_default_remove_other (k k' : str) (d : dict) (dflt : pyobj) :
  k' <> k ->
  Dict.get_default (Dict.remove k d) k' dflt = Dict.get_default d k' dflt.
Proof.
  intros H. unfold Dict.get_default. rewrite (lookup_remove_other d H).
  reflexivity.
Qed.

Lemma present_falsy_get (d : dict) (k : str) :
  present_falsy d k -> truthy (Dict.get d k) = false.
Proof. intros H. apply absent_or_empty_falsy. right. exact H. Qed.

(** C10: at each fallback point a key bound to a falsy value (None, the
    empty string, the empty dict, 0, False) gives the result the same
    object gives once the key is deleted, which is the value of the
    fallback source: for the top-level [model] against response.model, for
    response.reasoning against response.metadata.reasoning, and for
    [effort] against [effort_level]. *)
Theorem falsy_value_falls_back_like_absent_key :
  Forall (fun v => truthy v = false)
         [PNone; PStr []; PDict []; PInt 0; PBool false] /\
  (forall payload : dict,
     present_falsy payload (u "model") ->
     absent (Dict.remove (u "model") payload) (u "model") /\
     _extract_model payload = _extract_model (Dict.remove (u "model") payload) /\
     forall response,
       has_object payload (u "response") response ->
       _extract_model payload = Dict.get response (u "model")) /\
  (forall response : dict,
     present_falsy response (u "reasoning") ->
     absent (Dict.remove (u "reasoning") response) (u "reasoning") /\
     resolve_reasoning response =
     resolve_reasoning (Dict.remove (u "reasoning") response) /\
     forall metadata,
       has_object response (u "metadata") metadata ->
       resolve_reasoning response = inr (Dict.get metadata (u "reasoning"))) /\
  (forall reasoning : dict,
     present_falsy reasoning (u "effort") ->
     absent (Dict.remove (u "effort") reasoning) (u "effort") /\
     effort_of (PDict reasoning) =
     effort_of (PDict (Dict.remove (u "effort") reasoning)) /\
     effort_of (PDict reasoning) = inr (Dict.get reasoning (u "effort_level"))).
Proof.
  split; [repeat constructor|]. split; [|split].
  - intros payload H. split; [apply lookup_remove_same|].
    unfold _extract_model.
    rewrite (present_falsy_get H), get_remove_same. simpl.
    unfold Dict.get at 1 3.
    rewrite get_default_remove_other by (vm_compute; discriminate).
    split; [reflexivity|].
    intros response Hr. fold (Dict.get payload (u "response")).
    rewrite (get_of_lookup _ _ Hr). reflexivity.
  - intros response H. split; [apply lookup_remove_same|].
    unfold resolve_reasoning, py_or.
    rewrite (present_falsy_get H), get_remove_same. simpl.
    rewrite get_default_remove_other by (vm_compute; discriminate).
    split; [reflexivity|].
    intros metadata Hm. unfold Dict.get_default at 1. rewrite Hm. reflexivity.
  - intros reasoning H. split; [apply lookup_remove_same|].
    unfold effort_of, py_or.
    rewrite (present_falsy_get H), get_remove_same. simpl.
    unfold Dict.get.
    rewrite get_default_remove_other by (vm_compute; discriminate).
    split; reflexivity.
Qed.

Lemma falsy_value_falls_back_like_absent_key_witness :
  _extract_model [(u "model", PStr []);
                  (u "response", PDict [(u "model", PStr (u "gpt-5"))])]
  = PStr (u "gpt-5") /\
  resolve_reasoning [(u "reasoning", PDict []);
                     (u "metadata", PDict [(u "reasoning", PInt 1)])]
  = inr (PInt 1) /\
  effort_of (PDict [(u "effort", PInt 0); (u "effort_level", PStr (u "low"))])
  = inr (PStr (u "low")).
Proof.
  destruct falsy_value_falls_back_like_absent_key as (_ & Hm & Hr & He).
  split; [|split].
  - apply (proj2 (proj2 (Hm [(u "model", PStr []);
                             (u "response", PDict [(u "model", PStr (u "gpt-5"))])]
                            (ex_intro _ (PStr []) (conj eq_refl eq_refl))))
             [(u "model", PStr (u "gpt-5"))] eq_refl).
  - apply (proj2 (proj2 (Hr [(u "reasoning", PDict []);
                             (u "metadata", PDict [(u "reasoning", PInt 1)])]
                            (ex_intro _ (PDict []) (conj eq_refl eq_refl))))
             [(u "reasoning", PInt 1)] eq_refl).
  - apply (proj2 (proj2 (He [(u "effort", PInt 0);
                             (u "effort_level", PStr (u "low"))]
                            (ex_intro _ (PInt 0) (conj eq_refl eq_refl))))).
Defined.

(** * The SSE producer *)

Section Producer.

Variable json_loads : str -> exn + pyobj.

Lemma iter_lines_cons (raw_line : str) (rest : list str) :
  iter_lines json_loads (raw_line :: rest) =
  if negb (Str.startswith (Str.strip raw_line) (u "data:"))
  then iter_lines json_loads rest
  else
    let payload :=
      Str.strip (Str.slice_from (List.length (u "data:")) (Str.strip raw_line)) in
    if match payload with [] => true | _ :: _ => false end
       || Str.eqb payload (u "[DONE]")
    then iter_lines json_loads rest
    else
      GEmit (JsonLoads payload) ::
      match json_loads payload with
      | inl (JSONDecodeError msg) =>
          GEmit (LogWarn (u "failed to decode SSE chunk") msg payload)
            :: iter_lines json_loads rest
      | inl e => [GRaise e]
      | inr (PDict parsed) =>
          GYield (Dict.get_default parsed (u "type") (PStr (u "unknown")), parsed)
            :: iter_lines json_loads rest
      | inr _ => [GRaise AttributeError]
      end.
Proof. reflexivity. Qed.

Lemma iter_lines_not_data (raw_line : str) (rest : list str) :
  not_data_line raw_line ->
  iter_lines json_loads (raw_line :: rest) = iter_lines json_loads rest.
Proof.
  unfold not_data_line. intros H. rewrite iter_lines_cons, H. reflexivity.
Qed.

Lemma iter_lines_done (raw_line : str) (rest : list str) :
  done_line raw_line ->
  iter_lines json_loads (raw_line :: rest) = iter_lines json_loads rest.
Proof.
  intros [H1 H2]. rewrite iter_lines_cons, H1. cbv zeta. rewrite H2.
  reflexivity.
Qed.

Lemma iter_lines_chunk (raw_line chunk : str) (rest : list str) :
  data_chunk raw_line chunk ->
  iter_lines json_loads (raw_line :: rest) =
  GEmit (JsonLoads chunk) ::
  match json_loads chunk with
  | inl (JSONDecodeError msg) =>
      GEmit (LogWarn (u "failed to decode SSE chunk") msg chunk)
        :: iter_lines json_loads rest
  | inl e => [GRaise e]
  | inr (PDict parsed) =>
      GYield (Dict.get_default parsed (u "type") (PStr (u "unknown")), parsed)
        :: iter_lines json_loads rest
  | inr _ => [GRaise AttributeError]
  end.
Proof.
  intros (H1 & H2 & H3 & H4). rewrite iter_lines_cons, H1. cbv zeta.
  rewrite <- H2. apply Str_eqb_neq in H4. rewrite H4.
  destruct chunk; [congruence | reflexivity].
Qed.

(** A line either carries a chunk for the decoder or contributes nothing. *)
Lemma line_cases (raw_line : str) :
  (exists chunk, data_chunk raw_line chunk) \/
  (forall rest,
     iter_lines json_loads (raw_line :: rest) = iter_lines json_loads rest).
Proof.
  destruct (Str.startswith (Str.strip raw_line) (u "data:")) eqn:H1.
  - remember (Str.strip (Str.slice_from (List.length (u "data:"))
                                        (Str.strip raw_line))) as chunk eqn:E.
    destruct (Str.eqb chunk (u "[DONE]")) eqn:E2.
    + right. intros rest. apply Str_eqb_eq in E2.
      apply iter_lines_done. split; [exact H1 | congruence].
    + destruct chunk as [|c chunk'].
      * right. intros rest. rewrite iter_lines_cons, H1. cbv zeta.
        rewrite <- E. reflexivity.
      * left. exists (c :: chunk'). apply Str_eqb_neq in E2.
        repeat split; auto. discriminate.
  - right. intros rest. apply iter_lines_not_data. exact H1.
Qed.

(** Removing a line that contributes nothing leaves the generator as it is,
    wherever the line stands. *)
Lemma iter_lines_drop_silent (pre : list str) (raw_line : str) (post : list str) :
  (forall rest,
     iter_lines json_loads (raw_line :: rest) = iter_lines json_loads rest) ->
  iter_lines json_loads (pre ++ raw_line :: post) =
  iter_lines json_loads (pre ++ post).
Proof.
  intros H. induction pre as [|l pre IH].
  - apply H.
  - destruct (line_cases l) as [[chunk Hc] | Hs].
    + rewrite <- !app_comm_cons, !(iter_lines_chunk _ Hc), IH. reflexivity.
    + rewrite <- !app_comm_cons, !Hs. exact IH.
Qed.


(** Each decoder call and each yielded element comes from a [data:] line of
    the input. *)
Lemma iter_lines_origin (lines : list str) (step : gen_step (pyobj * dict)) :
  In step (iter_lines json_loads lines) ->
  match step with
  | GYield item => exists raw_line, In raw_line lines /\ valid_line json_loads raw_line item
  | GEmit (JsonLoads text) =>
      exists raw_line, In raw_line lines /\ data_chunk raw_line text
  | _ => True
  end.
Proof.
  induction lines as [|l lines IH]; [intros []|].
  assert (Hrest : In step (iter_lines json_loads lines) ->
                  match step with
                  | GYield item =>
                      exists raw_line, In raw_line (l :: lines) /\ valid_line json_loads raw_line item
                  | GEmit (JsonLoads text) =>
                      exists raw_line, In raw_line (l :: lines) /\ data_chunk raw_line text
                  | _ => True
                  end).
  { intros H. specialize (IH H).
    destruct step as [[]| |]; auto;
      destruct IH as (r & Hin & Hr); exists r; split; auto; right; exact Hin. }
  destruct (line_cases l) as [[chunk Hk] | Hs].
  - rewrite (iter_lines_chunk _ Hk). intros [<- | H].
    + exists l. split; [left; reflexivity | exact Hk].
    + destruct (json_loads chunk) as [[| |msg|name]|v] eqn:E.
      * destruct H as [<- | []]. exact I.
      * destruct H as [<- | []]. exact I.
      * destruct H as [<- | H]; [exact I | exact (Hrest H)].
      * destruct H as [<- | []]. exact I.
      * destruct v; try (destruct H as [<- | []]; exact I).
        destruct H as [<- | H]; [|exact (Hrest H)].
        exists l. split; [left; reflexivity|].
        exists chunk. simpl. auto.
  - rewrite Hs. exact Hrest.
Qed.


(** C6: the producer calls the decoder and yields only for lines that,
    trimmed, begin with the prefix data: and whose remaining text, trimmed,
    is neither empty nor [DONE]; a body without such a line gives the empty
    sequence; a line carrying [DONE] contributes nothing, the sequence
    being that of the other lines; and [DONE] is never handed to the
    decoder. *)
Theorem sse_producer_filters_lines (body : str) :
  (forall item,
     In (GYield item) (_iter_sse_payloads json_loads body) ->
     exists raw_line,
       In raw_line (Str.splitlines body) /\ valid_line json_loads raw_line item) /\
  (forall text,
     In (GEmit (JsonLoads text)) (_iter_sse_payloads json_loads body) ->
     exists raw_line,
       In raw_line (Str.splitlines body) /\ data_chunk raw_line text) /\
  (Forall not_data_line (Str.splitlines body) ->
   _iter_sse_payloads json_loads body = []) /\
  (forall pre raw_line post,
     Str.splitlines body = pre ++ raw_line :: post ->
     done_line raw_line ->
     _iter_sse_payloads json_loads body = iter_lines json_loads (pre ++ post)) /\
  ~ In (GEmit (JsonLoads (u "[DONE]"))) (_iter_sse_payloads json_loads body) /\
  _iter_sse_payloads json_loads (u "data: [DONE]") = [].
Proof.
  unfold _iter_sse_payloads. repeat split.
  - intros item H. exact (iter_lines_origin _ _ H).
  - intros text H. exact (iter_lines_origin _ _ H).
  - induction 1 as [|l lines Hl _ IH]; [reflexivity|].
    rewrite (iter_lines_not_data _ Hl). exact IH.
  - intros pre raw_line post -> Hd.
    apply iter_lines_drop_silent. intros rest.
    apply iter_lines_done, Hd.
  - intros H. apply iter_lines_origin in H.
    destruct H as (raw_line & _ & _ & _ & _ & Hne). apply Hne. reflexivity.
Qed.

End Producer.

Lemma sse_producer_filters_lines_witness :
  _iter_sse_payloads Json.json_loads_fragment body_without_data = [] /\
  _iter_sse_payloads Json.json_loads_fragment
    (js "data: {'model': 'gpt-5'}|data: [DONE]|") =
  iter_lines Json.json_loads_fragment [js "data: {'model': 'gpt-5'}"].
Proof.
  split.
  - apply (proj1 (proj2 (proj2
             (sse_producer_filters_lines Json.json_loads_fragment
                                         body_without_data)))).
    vm_compute. repeat constructor.
  - apply (proj1 (proj2 (proj2 (proj2
             (sse_producer_filters_lines Json.json_loads_fragment
                (js "data: {'model': 'gpt-5'}|data: [DONE]|")))))
             [js "data: {'model': 'gpt-5'}"] (u "data: [DONE]") []).
    + vm_compute. reflexivity.
    + split; vm_compute; reflexivity.
Defined.

(** * The callbacks *)

Lemma gettext_count_app (t t' : list event) :
  gettext_count (t ++ t') = (gettext_count t + gettext_count t')%nat.
Proof. unfold gettext_count. rewrite filter_app, length_app. reflexivity. Qed.

Lemma log_records_app (t t' : list event) :
  log_records (t ++ t') = log_records t ++ log_records t'.
Proof. apply filter_app. Qed.

Lemma quiet_ret {A} (a : A) : quiet (ret a).
Proof.
  intros w. split; [reflexivity|]. exists []. simpl.
  rewrite app_nil_r. auto.
Qed.

Lemma quiet_raise {A} (e : exn) : quiet (@raise A e).
Proof.
  intros w. split; [reflexivity|]. exists []. simpl.
  rewrite app_nil_r. auto.
Qed.

Lemma quiet_lift {A} (r : exn + A) : quiet (lift r).
Proof. destruct r; [apply quiet_raise | apply quiet_ret]. Qed.

Lemma quiet_emit (e : event) : gettext_count [e] = 0%nat -> quiet (emit e).
Proof. intros H w. split; [reflexivity|]. exists [e]. auto. Qed.

Lemma quiet_bind {A B} (m : M A) (k : A -> M B) :
  quiet m -> (forall a, quiet (k a)) -> quiet (bind m k).
Proof.
  intros Hm Hk w. unfold bind.
  destruct (Hm w) as (Hf & new & Ht & Hc).
  destruct (m w) as [[e | a] w']; simpl in *.
  - split; [exact Hf|]. exists new. auto.
  - destruct (Hk a w') as (Hf' & new' & Ht' & Hc').
    split; [congruence|]. exists (new ++ new').
    rewrite Ht', Ht, app_assoc, gettext_count_app, Hc, Hc'. auto.
Qed.

Lemma quiet_for_each {A} (g : list (gen_step A)) (body : A -> M unit) :
  (forall e, In (GEmit e) g -> gettext_count [e] = 0%nat) ->
  (forall a, quiet (body a)) ->
  quiet (for_each g body).
Proof.
  intros Hg Hb. induction g as [|[e | a | e] g IH]; simpl.
  - apply quiet_ret.
  - apply quiet_bind.
    + apply quiet_emit, Hg. left; reflexivity.
    + intros _. apply IH. intros e' H. apply Hg. right; exact H.
  - apply quiet_bind; [apply Hb|].
    intros _. apply IH. intros e' H. apply Hg. right; exact H.
  - apply quiet_raise.
Qed.

Lemma quiet_loop_body (flow : http.HTTPFlow) (item : pyobj * dict) :
  quiet (response_loop_body flow item).
Proof.
  destruct item as [event_type payload]. unfold response_loop_body.
  apply quiet_bind; [apply quiet_lift|].
  intros reasoning_effort.
  destruct (truthy (_extract_model payload)).
  - apply quiet_emit. reflexivity.
  - apply quiet_ret.
Qed.

Section Callbacks.

Variable json_loads : str -> exn + pyobj.

Lemma iter_lines_emits (lines : list str) (e : event) :
  In (GEmit e) (iter_lines json_loads lines) -> gettext_count [e] = 0%nat.
Proof.
  induction lines as [|l lines IH]; [intros []|].
  destruct (line_cases json_loads l) as [[chunk Hk] | Hs].
  - rewrite (iter_lines_chunk _ _ Hk). intros [H | H].
    + inversion H. reflexivity.
    + destruct (json_loads chunk) as [[| |msg|name]|[]];
        repeat (destruct H as [H | H]; [try discriminate|]);
        try (inversion H; reflexivity); try contradiction; auto.
  - rewrite Hs. exact IH.
Qed.

Lemma quiet_loop (body : str) (flow : http.HTTPFlow) :
  quiet (for_each (_iter_sse_payloads json_loads body) (response_loop_body flow)).
Proof.
  apply quiet_for_each.
  - apply iter_lines_emits.
  - apply quiet_loop_body.
Qed.

(** [response], path by path. *)
Lemma response_run (w : world) :
  response json_loads w =
  match http.response (w_flow w) with
  | None => (inr tt, w)
  | Some r =>
      if _looks_like_codex (w_flow w) then
        for_each (_iter_sse_payloads json_loads (http.response_text r))
                 (response_loop_body (w_flow w)) (loop_entry w r)
      else (inr tt, record [summary_record w r] w)
  end.
Proof.
  unfold response, bind, the_flow.
  destruct (http.response (w_flow w)) as [r|]; [|reflexivity].
  unfold log_info, emit.
  destruct (_looks_like_codex (w_flow w)); [|reflexivity].
  simpl. unfold try_except, write_last_body, ret. simpl.
  destruct (w_tmp_writable w) eqn:E; f_equal;
    unfold loop_entry, record, summary_record; simpl;
    rewrite <- app_assoc, E; reflexivity.
Qed.

(** [request], path by path. *)
Lemma request_run (w : world) :
  request json_loads w =
  if negb (_looks_like_codex (w_flow w)) then (inr tt, w)
  else if negb (Str.eqb (http.method (http.request (w_flow w))) (u "POST"))
  then (inr tt, w)
  else
    match http.request_text (http.request (w_flow w)) with
    | inl _ | inr None => (inr tt, record [GetText] w)
    | inr (Some body) =>
        match json_loads body with
        | inl _ => (inr tt, record [GetText; JsonLoads body] w)
        | inr (PDict d) =>
            (inr tt,
             record [GetText; JsonLoads body;
                     LogInfo
                       (u "codex_request flow=%s prompt_cache_key=%s include=%s keys=%s")
                       [AStr (http.id (w_flow w));
                        AObj (Dict.get d (u "prompt_cache_key"));
                        AObj (Dict.get d (u "include"));
                        AKeys (Dict.keys d)]] w)
        | inr _ => (inl AttributeError, record [GetText; JsonLoads body] w)
        end
    end.
Proof.
  unfold request, bind, the_flow.
  destruct (negb (_looks_like_codex (w_flow w))); [reflexivity|].
  destruct (negb (Str.eqb _ _)); [reflexivity|].
  unfold try_except, request_get_text, bind, emit, lift, raise, ret.
  destruct (http.request_text (http.request (w_flow w))) as [e | [body|]];
    [reflexivity | | reflexivity].
  assert (R : record [JsonLoads body] (record [GetText] w) =
              record [GetText; JsonLoads body] w).
  { unfold record; simpl. rewrite <- app_assoc. reflexivity. }
  rewrite R.
  destruct (json_loads body) as [e | v]; [reflexivity|].
  destruct v; try reflexivity.
  unfold log_info, emit, method_get. f_equal.
  unfold record; simpl. rewrite <- app_assoc. reflexivity.
Qed.


(** C9: neither callback changes the flow object, and each reads the body
    text of the flow at most once: the count of reads in the trace grows by
    one at most. *)
Theorem callbacks_leave_flow_and_read_body_once (w : world) :
  (w_flow (snd (response json_loads w)) = w_flow w /\
   gettext_count (w_trace (snd (response json_loads w)))
   <= gettext_count (w_trace w) + 1) /\
  (w_flow (snd (request json_loads w)) = w_flow w /\
   gettext_count (w_trace (snd (request json_loads w)))
   <= gettext_count (w_trace w) + 1).
Proof.
  assert (Hsame : w_flow w = w_flow w /\
                  gettext_count (w_trace w) <= gettext_count (w_trace w) + 1)
    by (split; [reflexivity | lia]).
  assert (Hrec : forall es,
             gettext_count es <= 1 ->
             w_flow (record es w) = w_flow w /\
             gettext_count (w_trace (record es w))
             <= gettext_count (w_trace w) + 1).
  { intros es H. split; [reflexivity|]. simpl.
    rewrite gettext_count_app. lia. }
  split.
  - rewrite response_run.
    destruct (http.response (w_flow w)) as [r|]; [|exact Hsame].
    destruct (_looks_like_codex (w_flow w)).
    + destruct (quiet_loop (http.response_text r) (w_flow w) (loop_entry w r))
        as (Hf & new & Ht & Hc).
      split; [exact Hf|]. rewrite Ht. simpl.
      rewrite !gettext_count_app, Hc.
      change (gettext_count [summary_record w r; GetText]) with 1%nat. lia.
    + apply Hrec. change (gettext_count [summary_record w r]) with 0%nat. lia.
  - rewrite request_run.
    destruct (negb (_looks_like_codex (w_flow w))); [exact Hsame|].
    destruct (negb (Str.eqb _ _)); [exact Hsame|].
    destruct (http.request_text (http.request (w_flow w))) as [e | [body|]];
      try (apply Hrec; apply le_n).
    destruct (json_loads body) as [e | []]; apply Hrec; apply le_n.
Qed.


(** C2, with its failing input: on a classified POST flow, [request] returns
    without a log record whenever the body text cannot be obtained or does
    not decode; but when the body decodes to a value that is no JSON object
    it raises AttributeError to the host. *)
Theorem request_silent_on_parse_failure_raises_on_non_object (w : world) :
  _looks_like_codex (w_flow w) = true ->
  http.method (http.request (w_flow w)) = u "POST" ->
  ((exists e, http.request_text (http.request (w_flow w)) = inl e) \/
   http.request_text (http.request (w_flow w)) = inr None \/
   (exists body e,
      http.request_text (http.request (w_flow w)) = inr (Some body) /\
      json_loads body = inl e) ->
   fst (request json_loads w) = inr tt /\
   log_records (w_trace (snd (request json_loads w))) = log_records (w_trace w)) /\
  (forall body v,
     http.request_text (http.request (w_flow w)) = inr (Some body) ->
     json_loads body = inr v ->
     isinstance_dict v = false ->
     fst (request json_loads w) = inl AttributeError).
Proof.
  intros Hc Hm. rewrite request_run, Hc, Hm, Str_eqb_refl. simpl. split.
  - intros [[e ->] | [-> | (body & e & -> & ->)]]; simpl;
      (split; [reflexivity|]); rewrite log_records_app; simpl;
      apply app_nil_r.
  - intros body v -> -> Hv. destruct v; try discriminate; reflexivity.
Qed.

End Callbacks.


Lemma request_silent_on_parse_failure_raises_on_non_object_witness :
  (fst (request Json.json_loads_fragment
          (post_world (inr (Some (u "{not json"))))) = inr tt /\
   log_records
     (w_trace (snd (request Json.json_loads_fragment
                      (post_world (inr (Some (u "{not json"))))))) = []) /\
  fst (request Json.json_loads_fragment (post_world (inr (Some (u "null")))))
  = inl AttributeError.
Proof.
  split.
  - apply (proj1 (@request_silent_on_parse_failure_raises_on_non_object
                    Json.json_loads_fragment
                    (post_world (inr (Some (u "{not json"))))
                    eq_refl eq_refl)).
    right. right. exists (u "{not json"), (JSONDecodeError (u "Expecting value")).
    split; vm_compute; reflexivity.
  - apply (proj2 (@request_silent_on_parse_failure_raises_on_non_object
                    Json.json_loads_fragment
                    (post_world (inr (Some (u "null"))))
                    eq_refl eq_refl)
             (u "null") PNone); vm_compute; reflexivity.
Defined.

(** * Further properties *)

Section Paths.

Variable json_loads : str -> exn + pyobj.

(** X2: [request] does nothing at all, no read of the body and no record,
    on a flow that is not classified or whose method is not POST, whatever
    the body is. *)
Theorem request_ignores_other_flows (w : world) :
  _looks_like_codex (w_flow w) = false \/
  http.method (http.request (w_flow w)) <> u "POST" ->
  request json_loads w = (inr tt, w).
Proof.
  intros [H | H]; rewrite request_run.
  - rewrite H. reflexivity.
  - apply Str_eqb_neq in H. rewrite H.
    destruct (negb (_looks_like_codex (w_flow w))); reflexivity.
Qed.

End Paths.

Lemma request_ignores_other_flows_witness :
  request Json.json_loads_fragment
    (mk_world (mk_flow codex_url (u "GET") (inr (Some (u "null"))) None)) =
  (inr tt, mk_world (mk_flow codex_url (u "GET") (inr (Some (u "null"))) None)).
Proof.
  apply request_ignores_other_flows. right. vm_compute. discriminate.
Defined.

(** ** A line that ends the stream *)

Section Stream.

Variable json_loads : str -> exn + pyobj.


(** X9: the producer hands at most one text per line to the decoder, and
    every element it yields and every warning it logs follows a decoder
    call of its own: yields are no more than decoder calls, which are no
    more than lines. *)
Theorem producer_work_is_bounded_by_lines (body : str) :
  List.length (yields (_iter_sse_payloads json_loads body))
  <= List.length (decoder_calls (_iter_sse_payloads json_loads body)) /\
  List.length (decoder_calls (_iter_sse_payloads json_loads body))
  <= List.length (Str.splitlines body).
Proof.
  unfold _iter_sse_payloads.
  induction (Str.splitlines body) as [|l lines [IH1 IH2]];
    [split; apply le_n|].
  destruct (line_cases json_loads l) as [[chunk Hk] | Hs].
  - rewrite (iter_lines_chunk _ _ Hk).
    destruct (json_loads chunk) as [[| |msg|name] | []]; simpl; lia.
  - rewrite Hs. simpl. lia.
Qed.

End Stream.


(** ** Whitespace around a line and around its payload *)

Lemma lstrip_space_app (ws s : str) :
  all_space ws -> Str.lstrip (ws ++ s) = Str.lstrip s.
Proof.
  induction 1 as [|c ws Hc _ IH]; [reflexivity|].
  simpl. rewrite Hc. exact IH.
Qed.

Lemma lstrip_all_space (ws : str) : all_space ws -> Str.lstrip ws = [].
Proof.
  intros H. rewrite <- (app_nil_r ws). rewrite (lstrip_space_app [] H).
  reflexivity.
Qed.

Lemma lstrip_nil_all_space (s : str) : Str.lstrip s = [] -> all_space s.
Proof.
  induction s as [|c s IH]; [constructor|].
  simpl. destruct (Str.isspace c) eqn:E; [|discriminate].
  intros H. constructor; [exact E | exact (IH H)].
Qed.

Lemma lstrip_head (s : str) (c : N) (t : str) :
  Str.lstrip s = c :: t -> Str.isspace c = false.
Proof.
  induction s as [|x s IH]; [discriminate|].
  simpl. destruct (Str.isspace x) eqn:E; [exact IH|].
  intros H. inversion H; subst. exact E.
Qed.

Lemma lstrip_split (s : str) :
  exists ws, all_space ws /\ s = ws ++ Str.lstrip s.
Proof.
  induction s as [|x s (ws & Hws & IH)].
  - exists []. split; [constructor | reflexivity].
  - simpl. destruct (Str.isspace x) eqn:E.
    + exists (x :: ws). split; [constructor; assumption|].
      simpl. rewrite <- IH. reflexivity.
    + exists []. split; [constructor | reflexivity].
Qed.

Lemma lstrip_app_nonempty (s x : str) :
  Str.lstrip s <> [] -> Str.lstrip (s ++ x) = Str.lstrip s ++ x.
Proof.
  induction s as [|c s IH]; [intros H; contradiction H; reflexivity|].
  simpl. destruct (Str.isspace c); [exact IH | reflexivity].
Qed.

Lemma lstrip_idempotent (s : str) : Str.lstrip (Str.lstrip s) = Str.lstrip s.
Proof.
  destruct (Str.lstrip s) as [|c t] eqn:E; [reflexivity|].
  simpl. rewrite (lstrip_head _ E). reflexivity.
Qed.

Lemma all_space_rev (ws : str) : all_space ws -> all_space (rev ws).
Proof. apply Forall_rev. Qed.

Lemma rstrip_app_space (s ws : str) :
  all_space ws -> Str.rstrip (s ++ ws) = Str.rstrip s.
Proof.
  intros H. unfold Str.rstrip.
  rewrite rev_app_distr, (lstrip_space_app _ (all_space_rev H)). reflexivity.
Qed.

Lemma rstrip_all_space (ws : str) : all_space ws -> Str.rstrip ws = [].
Proof.
  intros H. unfold Str.rstrip.
  rewrite (lstrip_all_space (all_space_rev H)). reflexivity.
Qed.

Lemma rstrip_app_nonempty (a b : str) :
  Str.rstrip b <> [] -> Str.rstrip (a ++ b) = a ++ Str.rstrip b.
Proof.
  unfold Str.rstrip. intros H.
  rewrite rev_app_distr, lstrip_app_nonempty, rev_app_distr, rev_involutive.
  - reflexivity.
  - intros E. apply H. rewrite E. reflexivity.
Qed.

Lemma rstrip_cons (c : N) (t : str) :
  Str.isspace c = false -> Str.rstrip (c :: t) = c :: Str.rstrip t.
Proof.
  intros Hc.
  destruct (Str.rstrip t) as [|x t'] eqn:E.
  - unfold Str.rstrip in *. simpl.
    assert (Ht : Str.lstrip (rev t) = []).
    { apply (f_equal (@rev N)) in E. rewrite rev_involutive in E. exact E. }
    pose proof (lstrip_nil_all_space _ Ht) as Hsp.
    rewrite (lstrip_space_app [c] Hsp). simpl. rewrite Hc. reflexivity.
  - change (c :: t) with ([c] ++ t).
    rewrite rstrip_app_nonempty by (rewrite E; discriminate).
    rewrite E. reflexivity.
Qed.

Lemma rstrip_idempotent (s : str) : Str.rstrip (Str.rstrip s) = Str.rstrip s.
Proof.
  unfold Str.rstrip. rewrite rev_involutive, lstrip_idempotent. reflexivity.
Qed.

Lemma strip_commute (s : str) :
  Str.lstrip (Str.rstrip s) = Str.rstrip (Str.lstrip s).
Proof.
  destruct (lstrip_split s) as (ws & Hws & Hs).
  destruct (Str.lstrip s) as [|c t] eqn:E.
  - rewrite app_nil_r in Hs. subst ws.
    rewrite (rstrip_all_space Hws). reflexivity.
  - pose proof (lstrip_head _ E) as Hc.
    rewrite Hs.
    rewrite rstrip_app_nonempty
      by (rewrite rstrip_cons by exact Hc; discriminate).
    rewrite (lstrip_space_app _ Hws).
    rewrite rstrip_cons by exact Hc.
    simpl. rewrite Hc. reflexivity.
Qed.

Lemma strip_idempotent (s : str) : Str.strip (Str.strip s) = Str.strip s.
Proof.
  unfold Str.strip.
  rewrite strip_commute, lstrip_idempotent, rstrip_idempotent. reflexivity.
Qed.

Lemma strip_surrounded (ws1 s ws2 : str) :
  all_space ws1 -> all_space ws2 ->
  Str.strip (ws1 ++ s ++ ws2) = Str.strip s.
Proof.
  intros H1 H2. unfold Str.strip.
  rewrite <- !strip_commute, app_assoc, (rstrip_app_space _ H2).
  rewrite strip_commute, (lstrip_space_app _ H1), <- strip_commute.
  reflexivity.
Qed.

Lemma strip_data_prefix (p : str) :
  Str.strip (u "data:" ++ p) = u "data:" ++ Str.rstrip p.
Proof.
  unfold Str.strip.
  change (Str.lstrip (u "data:" ++ p)) with (u "data:" ++ p).
  change (u "data:") with [100; 97; 116; 97; 58]%N. simpl.
  rewrite !rstrip_cons by reflexivity. reflexivity.
Qed.

Section Whitespace.

Variable json_loads : str -> exn + pyobj.

Lemma iter_lines_same_strip (raw_line raw_line' : str) (rest : list str) :
  Str.strip raw_line = Str.strip raw_line' ->
  iter_lines json_loads (raw_line :: rest) =
  iter_lines json_loads (raw_line' :: rest).
Proof. intros H. rewrite !iter_lines_cons, H. reflexivity. Qed.

(** X10: the producer sees a line through its trimmed form only: trimming
    every line beforehand changes nothing, whitespace before and after a
    line is ignored, so is the whitespace between the prefix data: and the
    payload, and the text handed to the decoder never begins or ends with
    whitespace. *)
Theorem producer_ignores_surrounding_whitespace :
  (forall lines,
     iter_lines json_loads (map Str.strip lines) = iter_lines json_loads lines) /\
  (forall ws1 raw_line ws2 rest,
     all_space ws1 -> all_space ws2 ->
     iter_lines json_loads ((ws1 ++ raw_line ++ ws2) :: rest) =
     iter_lines json_loads (raw_line :: rest)) /\
  (forall ws payload rest,
     all_space ws ->
     iter_lines json_loads ((u "data:" ++ ws ++ payload) :: rest) =
     iter_lines json_loads ((u "data:" ++ payload) :: rest)) /\
  (forall body text,
     In (GEmit (JsonLoads text)) (_iter_sse_payloads json_loads body) ->
     Str.strip text = text).
Proof.
  repeat split.
  - induction lines as [|l lines IH]; [reflexivity|].
    simpl map.
    rewrite (@iter_lines_same_strip (Str.strip l) l _ (strip_idempotent l)).
    rewrite !iter_lines_cons, IH. reflexivity.
  - intros ws1 raw_line ws2 rest H1 H2.
    apply iter_lines_same_strip, strip_surrounded; assumption.
  - intros ws payload rest Hws.
    rewrite !iter_lines_cons, !strip_data_prefix.
    change (Str.slice_from (Datatypes.length (u "data:"))
                           (u "data:" ++ Str.rstrip (ws ++ payload)))
      with (Str.rstrip (ws ++ payload)).
    change (Str.slice_from (Datatypes.length (u "data:"))
                           (u "data:" ++ Str.rstrip payload))
      with (Str.rstrip payload).
    assert (E : Str.strip (Str.rstrip (ws ++ payload)) =
                Str.strip (Str.rstrip payload)).
    { unfold Str.strip.
      rewrite !strip_commute, !rstrip_idempotent.
      rewrite (lstrip_space_app _ Hws). reflexivity. }
    assert (P : forall x, Str.startswith (u "data:" ++ x) (u "data:") = true)
      by (intros x; apply startswith_spec; exists x; reflexivity).
    rewrite !P, E. reflexivity.
  - intros body text H. apply iter_lines_origin in H.
    destruct H as (raw_line & _ & _ & -> & _). apply strip_idempotent.
Qed.

End Whitespace.

Lemma producer_ignores_surrounding_whitespace_witness :
  iter_lines Json.json_loads_fragment [js "   data:   {'model': 'gpt-5'}  "] =
  iter_lines Json.json_loads_fragment [js "data:{'model': 'gpt-5'}"].
Proof.
  destruct (producer_ignores_surrounding_whitespace Json.json_loads_fragment)
    as (_ & Hout & Hin & _).
  transitivity (iter_lines Json.json_loads_fragment
                  [u "data:" ++ u "   " ++ js "{'model': 'gpt-5'}"]).
  - change (js "   data:   {'model': 'gpt-5'}  ")
      with (u "   " ++ (u "data:" ++ u "   " ++ js "{'model': 'gpt-5'}")
              ++ u "  ").
    apply Hout; repeat constructor.
  - change (js "data:{'model': 'gpt-5'}")
      with (u "data:" ++ js "{'model': 'gpt-5'}").
    apply Hin; repeat constructor.
Defined.

(** ** Where the markers stand in the URL *)

(** X11: the classifier does not look at where the two markers stand: a
    URL is classified as soon as both occur, in either order, so a URL of
    another host that mentions chatgpt.com in its query after the path
    marker is classified too. *)
Theorem classifier_ignores_marker_position (flow : http.HTTPFlow) (a b c : str) :
  url_of flow = a ++ u "chatgpt.com" ++ b ++ u "/backend-api/codex" ++ c \/
  url_of flow = a ++ u "/backend-api/codex" ++ b ++ u "chatgpt.com" ++ c ->
  _looks_like_codex flow = true.
Proof.
  unfold _looks_like_codex, url_of. intros H.
  apply andb_true_iff. split; apply contains_spec; destruct H as [-> | ->].
  - exists a, (b ++ u "/backend-api/codex" ++ c). reflexivity.
  - exists (a ++ u "/backend-api/codex" ++ b), c.
    rewrite <- !app_assoc. reflexivity.
  - exists (a ++ u "chatgpt.com" ++ b), c. rewrite <- !app_assoc. reflexivity.
  - exists a, (b ++ u "chatgpt.com" ++ c). reflexivity.
Qed.

Lemma classifier_ignores_marker_position_witness :
  _looks_like_codex (flow_with_url url_marker_in_query) = true.
Proof.
  apply (@classifier_ignores_marker_position
           (flow_with_url url_marker_in_query)
           (u "https://example.org") (u "?next=") []).
  right. reflexivity.
Defined.

(** * The addon on mitmproxy's own logger *)

Section MitmProducer.

Variable json_loads : str -> exn + pyobj.

Lemma mitm_iter_lines_cons (raw_line : str) (rest : list str) :
  Mitm.iter_lines json_loads (raw_line :: rest) =
  if negb (Str.startswith (Str.strip raw_line) (u "data:"))
  then Mitm.iter_lines json_loads rest
  else
    let payload :=
      Str.strip (Str.slice_from (List.length (u "data:")) (Str.strip raw_line)) in
    if match payload with [] => true | _ :: _ => false end
       || Str.eqb payload (u "[DONE]")
    then Mitm.iter_lines json_loads rest
    else
      Mitm.Call (Mitm.LoadsCall payload) ::
      match json_loads payload with
      | inl (JSONDecodeError msg) =>
          Mitm.log_warn (u "failed to decode SSE chunk")
                        [(u "error", msg); (u "chunk", payload)]
                        (Mitm.iter_lines json_loads rest)
      | inl e => [Mitm.Raise e]
      | inr (PDict parsed) =>
          Mitm.Yield
            (Dict.get_default parsed (u "type") (PStr (u "unknown")), parsed)
            :: Mitm.iter_lines json_loads rest
      | inr _ => [Mitm.Raise AttributeError]
      end.
Proof. reflexivity. Qed.

Lemma mitm_iter_lines_chunk (raw_line chunk : str) (rest : list str) :
  data_chunk raw_line chunk ->
  Mitm.iter_lines json_loads (raw_line :: rest) =
  Mitm.Call (Mitm.LoadsCall chunk) ::
  match json_loads chunk with
  | inl (JSONDecodeError msg) =>
      [Mitm.Call (Mitm.WarnCall (u "failed to decode SSE chunk")
                                [(u "error", msg); (u "chunk", chunk)]);
       Mitm.Raise TypeError]
  | inl e => [Mitm.Raise e]
  | inr (PDict parsed) =>
      Mitm.Yield (Dict.get_default parsed (u "type") (PStr (u "unknown")), parsed)
        :: Mitm.iter_lines json_loads rest
  | inr _ => [Mitm.Raise AttributeError]
  end.
Proof.
  intros (H1 & H2 & H3 & H4). rewrite mitm_iter_lines_cons, H1. cbv zeta.
  rewrite <- H2. apply Str_eqb_neq in H4. rewrite H4.
  destruct chunk; [congruence | reflexivity].
Qed.

Lemma mitm_line_cases (raw_line : str) :
  (exists chunk, data_chunk raw_line chunk) \/
  (forall rest,
     Mitm.iter_lines json_loads (raw_line :: rest) =
     Mitm.iter_lines json_loads rest).
Proof.
  destruct (Str.startswith (Str.strip raw_line) (u "data:")) eqn:H1.
  - remember (Str.strip (Str.slice_from (List.length (u "data:"))
                                        (Str.strip raw_line))) as chunk eqn:E.
    destruct (Str.eqb chunk (u "[DONE]")) eqn:E2.
    + right. intros rest. apply Str_eqb_eq in E2.
      rewrite mitm_iter_lines_cons, H1. cbv zeta. rewrite <- E, E2.
      reflexivity.
    + destruct chunk as [|c chunk'].
      * right. intros rest. rewrite mitm_iter_lines_cons, H1. cbv zeta.
        rewrite <- E. reflexivity.
      * left. exists (c :: chunk'). apply Str_eqb_neq in E2.
        repeat split; auto. discriminate.
  - right. intros rest. rewrite mitm_iter_lines_cons, H1. reflexivity.
Qed.

Lemma mitm_iter_lines_app (pre post : list str) :
  Mitm.completes (Mitm.iter_lines json_loads pre) ->
  Mitm.iter_lines json_loads (pre ++ post) =
  Mitm.iter_lines json_loads pre ++ Mitm.iter_lines json_loads post.
Proof.
  induction pre as [|l pre IH]; intros Hc; [reflexivity|].
  destruct (mitm_line_cases l) as [[chunk Hk] | Hs].
  - rewrite <- app_comm_cons, !(mitm_iter_lines_chunk _ Hk) in *.
    destruct (json_loads chunk) as [[| |msg|name]|[]];
      try (exfalso; eapply Hc; right; left; reflexivity);
      try (exfalso; eapply Hc; right; right; left; reflexivity).
    simpl. rewrite IH; [reflexivity|].
    intros e He. apply (Hc e). right. right. exact He.
  - rewrite <- app_comm_cons, !Hs in *. auto.
Qed.

Lemma mitm_yields_app {A} (g g' : list (Mitm.step A)) :
  Mitm.yields (g ++ g') = Mitm.yields g ++ Mitm.yields g'.
Proof. apply flat_map_app. Qed.

(** C7, at its failing inputs: a data: line whose text the decoder does not
    decode ends the stream.  If the decoder raises JSONDecodeError, the
    handler calls the logger's warn with the keywords error and chunk,
    which the host refuses with TypeError; any other exception of the
    decoder is not caught at all.  Either way the producer raises at that
    line, no record is logged and no later line is decoded or yielded;
    so it is for a body that starts with the line data: {not json. *)
Theorem decode_failure_ends_the_stream (body : str) :
  (forall pre raw_line post chunk e,
     Str.splitlines body = pre ++ raw_line :: post ->
     Mitm.completes (Mitm.iter_lines json_loads pre) ->
     data_chunk raw_line chunk ->
     json_loads chunk = inl e ->
     Mitm._iter_sse_payloads json_loads (Some body) =
     Mitm.iter_lines json_loads pre ++
     Mitm.Call (Mitm.LoadsCall chunk) ::
     match e with
     | JSONDecodeError msg =>
         [Mitm.Call (Mitm.WarnCall (u "failed to decode SSE chunk")
                                   [(u "error", msg); (u "chunk", chunk)]);
          Mitm.Raise TypeError]
     | _ => [Mitm.Raise e]
     end /\
     Mitm.yields (Mitm._iter_sse_payloads json_loads (Some body)) =
     Mitm.yields (Mitm.iter_lines json_loads pre)) /\
  (forall msg post,
     Str.splitlines body = u "data: {not json" :: post ->
     json_loads (u "{not json") = inl (JSONDecodeError msg) ->
     Mitm._iter_sse_payloads json_loads (Some body) =
     [Mitm.Call (Mitm.LoadsCall (u "{not json"));
      Mitm.Call (Mitm.WarnCall (u "failed to decode SSE chunk")
                               [(u "error", msg); (u "chunk", u "{not json")]);
      Mitm.Raise TypeError] /\
     Mitm.yields (Mitm._iter_sse_payloads json_loads (Some body)) = []).
Proof.
  unfold Mitm._iter_sse_payloads. split.
  - intros pre raw_line post chunk e -> Hpre Hk Hdec.
    rewrite mitm_iter_lines_app by exact Hpre.
    rewrite (mitm_iter_lines_chunk _ Hk), Hdec.
    split.
    + destruct e; reflexivity.
    + rewrite mitm_yields_app.
      destruct e; simpl; apply app_nil_r.
  - intros msg post -> Hdec.
    assert (Hk : data_chunk (u "data: {not json") (u "{not json")).
    { repeat split; vm_compute; congruence. }
    rewrite (mitm_iter_lines_chunk _ Hk), Hdec. split; reflexivity.
Qed.

End MitmProducer.

Lemma decode_failure_ends_the_stream_witness :
  Mitm._iter_sse_payloads Json.json_loads_fragment (Some body_bad_then_valid) =
  [Mitm.Call (Mitm.LoadsCall (u "{not json"));
   Mitm.Call (Mitm.WarnCall (u "failed to decode SSE chunk")
                            [(u "error", u "Expecting value");
                             (u "chunk", u "{not json")]);
   Mitm.Raise TypeError] /\
  Mitm.yields
    (Mitm._iter_sse_payloads Json.json_loads_fragment (Some body_bad_then_valid))
  = [].
Proof.
  apply (proj2 (decode_failure_ends_the_stream Json.json_loads_fragment
                  body_bad_then_valid)
           (u "Expecting value")
           [[]; js "data: {'type': 'response.created', 'model': 'gpt-5'}"; [];
            u "data: [DONE]"]).
  - vm_compute. reflexivity.
  - vm_compute. reflexivity.
Defined.

Section MitmCallbacks.

Variable json_loads : str -> exn + pyobj.

(** [response] on this host, path by path. *)
Lemma mitm_response_run (w : Mitm.world) :
  Mitm.response json_loads w =
  match Mitm.flow.response (Mitm.w_flow w) with
  | None => (inr tt, w)
  | Some r => (inl TypeError, Mitm.record [Mitm.summary_call w r] w)
  end.
Proof.
  unfold Mitm.response, Mitm.bind, Mitm.the_flow.
  destruct (Mitm.flow.response (Mitm.w_flow w)); reflexivity.
Qed.

(** [request] on this host, path by path. *)
Lemma mitm_request_run (w : Mitm.world) :
  Mitm.request json_loads w =
  if negb (Mitm._looks_like_codex (Mitm.w_flow w)) then (inr tt, w)
  else if negb (Str.eqb (http.method (Mitm.flow.request (Mitm.w_flow w)))
                        (u "POST"))
  then (inr tt, w)
  else
    match http.request_text (Mitm.flow.request (Mitm.w_flow w)) with
    | inl _ | inr None => (inr tt, Mitm.record [Mitm.GetTextCall] w)
    | inr (Some body) =>
        match json_loads body with
        | inl _ =>
            (inr tt, Mitm.record [Mitm.GetTextCall; Mitm.LoadsCall body] w)
        | inr (PDict d) =>
            (inl TypeError,
             Mitm.record [Mitm.GetTextCall; Mitm.LoadsCall body;
                          Mitm.request_call w d] w)
        | inr _ =>
            (inl AttributeError,
             Mitm.record [Mitm.GetTextCall; Mitm.LoadsCall body] w)
        end
    end.
Proof.
  unfold Mitm.request, Mitm.bind, Mitm.the_flow.
  destruct (negb (Mitm._looks_like_codex (Mitm.w_flow w))); [reflexivity|].
  destruct (negb (Str.eqb _ _)); [reflexivity|].
  unfold Mitm.try_except, Mitm.request_get_text, Mitm.bind, Mitm.emit,
    Mitm.lift, Mitm.raise, Mitm.ret.
  destruct (http.request_text (Mitm.flow.request (Mitm.w_flow w)))
    as [e | [body|]]; [reflexivity | | reflexivity].
  assert (R : Mitm.record [Mitm.LoadsCall body] (Mitm.record [Mitm.GetTextCall] w)
              = Mitm.record [Mitm.GetTextCall; Mitm.LoadsCall body] w).
  { unfold Mitm.record; simpl. rewrite <- app_assoc. reflexivity. }
  rewrite R.
  destruct (json_loads body) as [e | v]; [reflexivity|].
  destruct v; try reflexivity.
  unfold Mitm.log_info, Mitm.bind, Mitm.emit, Mitm.raise, method_get. f_equal.
  unfold Mitm.record, Mitm.request_call; simpl. rewrite <- app_assoc.
  reflexivity.
Qed.


(** X1: on a classified POST flow whose body decodes to a JSON object,
    [request] asks for the body text once, decodes it once and makes one
    info call with the flow id, the values of prompt_cache_key and include
    (None when missing) and the keys of the object in order; the host
    refuses that call, which has four arguments besides the text, and
    [request] raises TypeError. *)
Theorem request_log_call_on_decoded_object
  (w : Mitm.world) (body : str) (d : dict) :
  Mitm._looks_like_codex (Mitm.w_flow w) = true ->
  http.method (Mitm.flow.request (Mitm.w_flow w)) = u "POST" ->
  http.request_text (Mitm.flow.request (Mitm.w_flow w)) = inr (Some body) ->
  json_loads body = inr (PDict d) ->
  Mitm.request json_loads w =
  (inl TypeError,
   Mitm.record [Mitm.GetTextCall; Mitm.LoadsCall body; Mitm.request_call w d] w) /\
  (absent d (u "prompt_cache_key") -> absent d (u "include") ->
   Mitm.request_call w d =
   Mitm.InfoCall
     (u "codex_request flow=%s prompt_cache_key=%s include=%s keys=%s")
     [AStr (Mitm.flow.id (Mitm.w_flow w)); AObj PNone; AObj PNone;
      AKeys (Dict.keys d)]).
Proof.
  intros Hc Hm Hb Hd. split.
  - rewrite mitm_request_run, Hc, Hm, Str_eqb_refl, Hb, Hd. reflexivity.
  - intros H1 H2. unfold Mitm.request_call.
    rewrite (get_absent H1), (get_absent H2). reflexivity.
Qed.

(** X3: [request] raises exactly on a classified POST flow whose body
    decodes: AttributeError when the decoded value is no JSON object,
    TypeError, from the refused info call, when it is one.  It returns
    normally only where it has nothing to log. *)
Theorem request_raises_on_every_decoded_body (w : Mitm.world) (e : exn) :
  fst (Mitm.request json_loads w) = inl e <->
  Mitm._looks_like_codex (Mitm.w_flow w) = true /\
  http.method (Mitm.flow.request (Mitm.w_flow w)) = u "POST" /\
  exists body v,
    http.request_text (Mitm.flow.request (Mitm.w_flow w)) = inr (Some body) /\
    json_loads body = inr v /\
    e = if isinstance_dict v then TypeError else AttributeError.
Proof.
  rewrite mitm_request_run. split.
  - destruct (Mitm._looks_like_codex (Mitm.w_flow w)); [|discriminate].
    destruct (Str.eqb _ _) eqn:Em; [|discriminate].
    apply Str_eqb_eq in Em. simpl.
    destruct (http.request_text (Mitm.flow.request (Mitm.w_flow w)))
      as [e' | [body|]]; try discriminate.
    destruct (json_loads body) as [e' | v] eqn:Ed; [discriminate|].
    destruct v; intros H; inversion H;
      repeat split; auto; eexists _, _; repeat split; eauto.
  - intros (Hc & Hm & body & v & Hb & Hd & ->).
    rewrite Hc, Hm, Str_eqb_refl, Hb, Hd.
    destruct v; reflexivity.
Qed.

(** X4: on every flow with a response, classified or not, [response] makes
    the summary call, which the host refuses, and raises TypeError; it does
    nothing else: the body text is not asked for, the side file is left
    alone and no line of the body is looked at. *)
Theorem response_stops_at_summary_call (w : Mitm.world) (r : Mitm.flow.Response) :
  Mitm.flow.response (Mitm.w_flow w) = Some r ->
  Mitm.response json_loads w =
  (inl TypeError, Mitm.record [Mitm.summary_call w r] w) /\
  Mitm.w_last_body (snd (Mitm.response json_loads w)) = Mitm.w_last_body w.
Proof.
  intros Hr. rewrite mitm_response_run, Hr. split; reflexivity.
Qed.

Lemma mitm_gettext_count_app (t t' : list Mitm.call) :
  Mitm.gettext_count (t ++ t') =
  (Mitm.gettext_count t + Mitm.gettext_count t')%nat.
Proof.
  unfold Mitm.gettext_count. rewrite filter_app, length_app. reflexivity.
Qed.

(** X12: [response] never asks for the body text, whatever the flow; on a
    classified POST flow [request] asks for it exactly once, whether or not
    the text can be obtained or decoded and whether or not [request]
    raises. *)
Theorem body_text_reads (w : Mitm.world) :
  Mitm.gettext_count (Mitm.w_calls (snd (Mitm.response json_loads w)))
  = Mitm.gettext_count (Mitm.w_calls w) /\
  (Mitm._looks_like_codex (Mitm.w_flow w) = true ->
   http.method (Mitm.flow.request (Mitm.w_flow w)) = u "POST" ->
   Mitm.gettext_count (Mitm.w_calls (snd (Mitm.request json_loads w)))
   = Mitm.gettext_count (Mitm.w_calls w) + 1).
Proof.
  split.
  - rewrite mitm_response_run.
    destruct (Mitm.flow.response (Mitm.w_flow w)) as [r|]; [|reflexivity].
    simpl. rewrite mitm_gettext_count_app.
    change (Mitm.gettext_count [Mitm.summary_call w r]) with 0%nat. lia.
  - intros Hc Hm. rewrite mitm_request_run, Hc, Hm, Str_eqb_refl. simpl.
    destruct (http.request_text (Mitm.flow.request (Mitm.w_flow w)))
      as [e | [body|]];
      try (simpl; rewrite mitm_gettext_count_app; reflexivity).
    destruct (json_loads body) as [e | []];
      simpl; rewrite mitm_gettext_count_app; reflexivity.
Qed.

End MitmCallbacks.



Lemma request_log_call_on_decoded_object_witness :
  Mitm.request Json.json_loads_fragment (Mitm.post_world body_cache_key) =
  (inl TypeError,
   Mitm.record
     [Mitm.GetTextCall; Mitm.LoadsCall body_cache_key;
      Mitm.InfoCall
        (u "codex_request flow=%s prompt_cache_key=%s include=%s keys=%s")
        [AStr (u "flow-1"); AObj (PStr (u "abc"));
         AObj (PList [PStr (u "x")]);
         AKeys [u "prompt_cache_key"; u "include"; u "extra"]]]
     (Mitm.post_world body_cache_key)).
Proof.
  apply (proj1 (@request_log_call_on_decoded_object Json.json_loads_fragment
                  (Mitm.post_world body_cache_key) body_cache_key
                  [(u "prompt_cache_key", PStr (u "abc"));
                   (u "include", PList [PStr (u "x")]);
                   (u "extra", PInt 1)]
                  eq_refl eq_refl eq_refl eq_refl)).
Defined.

Lemma request_raises_on_every_decoded_body_witness :
  fst (Mitm.request Json.json_loads_fragment (Mitm.post_world (u "[1]")))
  = inl AttributeError /\
  fst (Mitm.request Json.json_loads_fragment (Mitm.post_world (u "{}")))
  = inl TypeError.
Proof.
  split.
  - apply (proj2 (request_raises_on_every_decoded_body Json.json_loads_fragment
                    (Mitm.post_world (u "[1]")) AttributeError)).
    repeat split. exists (u "[1]"), (PList [PInt 1]). repeat split.
  - apply (proj2 (request_raises_on_every_decoded_body Json.json_loads_fragment
                    (Mitm.post_world (u "{}")) TypeError)).
    repeat split. exists (u "{}"), (PDict []). repeat split.
Defined.

Lemma response_stops_at_summary_call_witness :
  Mitm.response Json.json_loads_fragment Mitm.world_other_site =
  (inl TypeError,
   Mitm.record
     [Mitm.InfoCall (u "codex_response flow=%s status=%s headers=%s")
                    [AStr (u "flow-1"); AInt 404; AHeaders []]]
     Mitm.world_other_site).
Proof.
  apply (proj1 (@response_stops_at_summary_call Json.json_loads_fragment
                  Mitm.world_other_site Mitm.not_found eq_refl)).
Defined.

Lemma body_text_reads_witness :
  Mitm.gettext_count
    (Mitm.w_calls (snd (Mitm.request Json.json_loads_fragment
                                     (Mitm.post_world (u "{not json")))))
  = 1%nat.
Proof.
  apply (proj2 (body_text_reads Json.json_loads_fragment
                  (Mitm.post_world (u "{not json")))); reflexivity.
Defined.
